(** * Bybit P2P worker bot: the matching, dedup and order-placement loop

    A shallow embedding of [src/main.py]: [prune_history],
    [BotEngine.get_online_ads], [BotEngine.create_buy_order] and the body of
    [BotEngine.worker_loop], with the properties the specification states
    about them.

    Python values are dynamically typed, so listings and gateway answers are
    modelled by a small universe of JSON-like values ([pyval]); exceptions
    are modelled by a state-and-exception monad in which a raised exception
    keeps the mutations made before it, as in Python.

    What lies outside [src/main.py] is taken as given: the clock, the SDK
    client, the choice made by [set.pop], and the built-ins [float] (on a
    string) and [str]. The configuration in [self.state] has the types that
    [DEFAULT_STATE] and the chat handlers give it, and is not changed by
    another thread while a cycle runs. The sleeps and the log lines (but the
    one that reports an infeasible listing) are left out. *)

From Stdlib Require Import ZArith List String Bool Lia QArith Qround.
From Stdlib Require Import Floats.SpecFloat.
From Stdlib Require Import Ascii.
Import ListNotations.
Local Open Scope string_scope.
Local Open Scope Z_scope.
Local Open Scope list_scope.

Local Set Warnings "-register-all".

(** ** Python values *)

Module Py.

(** A Python [float] is an IEEE-754 binary64 number: the Standard Library's
    [spec_float] (zero, infinity, NaN, or [(-1)^s * m * 2^e]). *)
Definition float := spec_float.

Inductive pyval : Type :=
| PNone
| PBool (b : bool)
| PInt (z : Z)
| PFloat (f : float)
| PStr (s : string)
| PList (l : list pyval)
| PDict (d : list (string * pyval)).

(** [bool(v)]: the truth value used by [or], [not] and [if]. *)
Definition truthy (v : pyval) : bool :=
  match v with
  | PNone => false
  | PBool b => b
  | PInt z => negb (z =? 0)
  | PFloat (S754_zero _) => false
  | PFloat _ => true
  | PStr s => negb (String.eqb s "")
  | PList l => match l with [] => false | _ => true end
  | PDict d => match d with [] => false | _ => true end
  end.

(** [a or b] (both operands here are free of effects). *)
Definition py_or (a b : pyval) : pyval := if truthy a then a else b.

Definition is_none (v : pyval) : bool :=
  match v with PNone => true | _ => false end.

(** Dictionary lookup: [d.get(k)] and [d.get(k, dflt)]. *)
Fixpoint lookup (d : list (string * pyval)) (k : string) : option pyval :=
  match d with
  | [] => None
  | (k', v) :: rest => if String.eqb k k' then Some v else lookup rest k
  end.

Definition dict_get (d : list (string * pyval)) (k : string) : pyval :=
  match lookup d k with Some v => v | None => PNone end.

Definition dict_get_default (d : list (string * pyval)) (k : string)
    (dflt : pyval) : pyval :=
  match lookup d k with Some v => v | None => dflt end.

(** ** Numbers *)

(** The signed mantissa of a finite float. *)
Definition fnum (s : bool) (m : positive) : Z := cond_Zopp s (Zpos m).

(** The exact rational value of a finite float. *)
Definition dyadic (n e : Z) : Q :=
  match e with
  | Z0 => inject_Z n
  | Zpos p => inject_Z (n * Z.pow_pos 2 p)
  | Zneg p => Qmake n (Pos.pow 2 p)
  end.

Definition float_value (f : float) : option Q :=
  match f with
  | S754_zero _ => Some (inject_Z 0)
  | S754_finite s m e => Some (dyadic (fnum s m) e)
  | S754_infinity _ | S754_nan => None
  end.

(** [float(z)] for an [int]: rounds to the nearest binary64, and raises
    [OverflowError] (here [None]) when the integer is too large. *)
Definition float_of_int (z : Z) : option float :=
  match binary_normalize 53 1024 z 0 false with
  | S754_infinity _ => None
  | f => Some f
  end.

(** [int(f)]: truncation toward zero; [OverflowError] on an infinity and
    [ValueError] on NaN (both [None]). *)
Definition int_of_float (f : float) : option Z :=
  match f with
  | S754_zero _ => Some 0
  | S754_finite s m e =>
      Some match e with
           | Z0 => fnum s m
           | Zpos p => fnum s m * Z.pow_pos 2 p
           | Zneg p => Z.quot (fnum s m) (Zpos (Pos.pow 2 p))
           end
  | S754_infinity _ | S754_nan => None
  end.

(** Python compares an [int] with a [float] exactly, by value. *)
Definition Z_compare_float (z : Z) (f : float) : option comparison :=
  match f with
  | S754_nan => None
  | S754_infinity s => Some (if s then Gt else Lt)
  | S754_zero _ => Some (z ?= 0)
  | S754_finite s m e =>
      Some match e with
           | Z0 => z ?= fnum s m
           | Zpos p => z ?= fnum s m * Z.pow_pos 2 p
           | Zneg p => z * Zpos (Pos.pow 2 p) ?= fnum s m
           end
  end.

(** [z < f] and [z > f] for an [int] [z] and a [float] [f]. *)
Definition int_lt_float (z : Z) (f : float) : bool :=
  match Z_compare_float z f with Some Lt => true | _ => false end.

Definition int_gt_float (z : Z) (f : float) : bool :=
  match Z_compare_float z f with Some Gt => true | _ => false end.

(** [a <= b] on floats is the IEEE comparison (false on NaN). *)
Definition float_le (a b : float) : bool := SFleb a b.

(** ** Equality and hashing, as a [set] uses them *)

Inductive number : Type :=
| NInt (z : Z)
| NFloat (f : float).

Definition as_number (v : pyval) : option number :=
  match v with
  | PBool b => Some (NInt (Z.b2z b))
  | PInt z => Some (NInt z)
  | PFloat f => Some (NFloat f)
  | _ => None
  end.

Definition comparison_is_eq (c : option comparison) : bool :=
  match c with Some Eq => true | _ => false end.

Definition number_eqb (a b : number) : bool :=
  match a, b with
  | NInt x, NInt y => x =? y
  | NInt x, NFloat g => comparison_is_eq (Z_compare_float x g)
  | NFloat f, NInt y => comparison_is_eq (Z_compare_float y f)
  | NFloat f, NFloat g => SFeqb f g
  end.

(** [a == b] on hashable values: numbers compare by value across [bool],
    [int] and [float] (NaN equals nothing); a string equals only the same
    string. *)
Definition py_eqb (a b : pyval) : bool :=
  match a, b with
  | PNone, PNone => true
  | PStr s, PStr t => String.eqb s t
  | _, _ =>
      match as_number a, as_number b with
      | Some x, Some y => number_eqb x y
      | _, _ => false
      end
  end.

(** Lists and dictionaries are unhashable: using one as a set element
    raises [TypeError]. *)
Definition hashable (v : pyval) : bool :=
  match v with PList _ | PDict _ => false | _ => true end.

End Py.
Export Py.

(** ** The persisted state and the engine *)

(** What [datetime.fromisoformat] makes of a stored ["timestamp"]: a naive
    instant or an offset-aware one (both in microseconds since the epoch). *)
Inductive datetime : Type :=
| Naive (us : Z)
| Aware (us : Z).

(** The ["timestamp"] entry of a history record, represented by the outcome
    of [datetime.fromisoformat(item["timestamp"])]: the text of a naive
    instant (what [datetime.utcnow().isoformat()] writes), the text of an
    instant with a UTC offset, or anything on which the lookup or the parse
    raises (a missing key, a non-string, an unparseable text). *)
Inductive timestamp : Type :=
| TsNaive (us : Z)
| TsAware (us : Z)
| TsMalformed.

(** A history record, the dictionary built at [worker_loop] lines 240-245:
    [{"order_response", "ad": {"id", "price", "raw"}, "amount",
    "timestamp"}]. *)
Record order_attempt : Type := {
  order_response : pyval;
  ad_id : pyval;
  ad_price : float;
  ad_raw : pyval;
  amount : Z;
  timestamp_of : timestamp
}.

(** [self.state]: the configuration and the history ([DEFAULT_STATE]). *)
Record state : Type := {
  market_coin : pyval;
  market_fiat : pyval;
  market_watch_side : pyval;
  price_range_min : float;
  price_range_max : float;
  min_buy : option Z;      (* [state.get("min_buy", 10000)] *)
  max_buy : Z;
  bot_running : bool;
  history : list order_attempt
}.

(** What the engine emits to the outside, in order. *)
Inductive event : Type :=
| EvInfeasible (id : pyval) (amount : Z) (ad_max : float)
    (* [logging.info("Ad %s cannot satisfy amount ...")] *)
| EvOrder (ad : pyval) (amount : Z) (resp : pyval)
    (* [resp = self.create_buy_order(ad, amount_fiat)] *)
| EvRecord (r : order_attempt)
    (* [history.insert(0, record)] *)
| EvSave
    (* [save_state(self.state)] *)
| EvNotify (id : pyval) (price : float) (amount : Z) (order_id : pyval)
    (* [self.app.create_task(self.notify_admin(text, buttons))]: the
       notification is handed over; what the library then does, and its
       failure, which is caught and logged, are outside the model *)
| EvSeen (id : pyval)
    (* [self.seen_ads.add(ad_id)] *).

(** The engine together with what it has read from and written to the
    outside world: [tick] counts the readings of the clock and the calls of
    the gateway, [trace] lists the emitted events, oldest first. *)
Record world : Type := {
  st : state;
  seen_ads : list pyval;
  tick : nat;
  trace : list event
}.

Definition set_history (h : list order_attempt) (s : state) : state :=
  {| market_coin := market_coin s; market_fiat := market_fiat s;
     market_watch_side := market_watch_side s;
     price_range_min := price_range_min s;
     price_range_max := price_range_max s;
     min_buy := min_buy s; max_buy := max_buy s;
     bot_running := bot_running s; history := h |}.

Definition set_max_buy (n : Z) (s : state) : state :=
  {| market_coin := market_coin s; market_fiat := market_fiat s;
     market_watch_side := market_watch_side s;
     price_range_min := price_range_min s;
     price_range_max := price_range_max s;
     min_buy := min_buy s; max_buy := n;
     bot_running := bot_running s; history := history s |}.

Definition with_state (s : state) (w : world) : world :=
  {| st := s; seen_ads := seen_ads w; tick := tick w; trace := trace w |}.

Definition with_seen (l : list pyval) (w : world) : world :=
  {| st := st w; seen_ads := l; tick := tick w; trace := trace w |}.

Definition with_tick (n : nat) (w : world) : world :=
  {| st := st w; seen_ads := seen_ads w; tick := n; trace := trace w |}.

Definition with_trace (t : list event) (w : world) : world :=
  {| st := st w; seen_ads := seen_ads w; tick := tick w; trace := t |}.

(** ** Statements that may raise

    A computation maps a world to a world, and either returns a value or
    raises ([None]). An exception does not undo the mutations made before
    it. *)
Definition M (A : Type) : Type := world -> option A * world.

Definition ret {A : Type} (a : A) : M A := fun w => (Some a, w).

Definition raise {A : Type} : M A := fun w => (None, w).

Definition bind {A B : Type} (m : M A) (k : A -> M B) : M B :=
  fun w => match m w with
           | (Some a, w') => k a w'
           | (None, w') => (None, w')
           end.

Declare Scope py_scope.
Delimit Scope py_scope with py.
Notation "x <- m ;; k" := (bind m (fun x => k))
  (at level 100, m at next level, right associativity) : py_scope.
Notation "m ;;; k" := (bind m (fun _ => k))
  (at level 100, right associativity) : py_scope.
Local Open Scope py_scope.

(** [try: body except Exception: (log)]. *)
Definition try_except (body : M unit) : M unit :=
  fun w => (Some tt, snd (body w)).

(** A value that may be an exception, lifted. *)
Definition lift {A : Type} (o : option A) : M A :=
  match o with Some a => ret a | None => raise end.

Definition gets {A : Type} (f : world -> A) : M A := fun w => (Some (f w), w).

Definition modify (f : world -> world) : M unit := fun w => (Some tt, f w).

Definition emit (e : event) : M unit :=
  modify (fun w => with_trace (trace w ++ [e]) w).

(** The world after a computation, whether it returned or raised. *)
Definition exec {A : Type} (m : M A) (w : world) : world := snd (m w).

(** [timedelta(days=10)], in microseconds. *)
Definition ten_days : Z := 10 * 86400 * 1000000.

Section Engine.

(** The clock: the [n]-th reading of the outside world is a reading of
    [datetime.utcnow()], in microseconds since the epoch. *)
Variable clock : nat -> Z.

Definition utcnow : M Z :=
  fun w => (Some (clock (tick w)), with_tick (S (tick w)) w).

(** [ts >= cutoff] for a naive [cutoff]: comparing an offset-aware datetime
    with a naive one raises [TypeError]. *)
Definition datetime_ge (ts : datetime) (cutoff : Z) : M bool :=
  match ts with
  | Naive t => ret (cutoff <=? t)
  | Aware _ => raise
  end.

(** The loop of [prune_history]: [new_hist] accumulates the kept records. *)
Fixpoint prune_loop (cutoff : Z) (items new_hist : list order_attempt)
  : M (list order_attempt) :=
  match items with
  | [] => ret new_hist
  | item :: rest =>
      ts <- match timestamp_of item with
            | TsNaive t => ret (Naive t)
            | TsAware t => ret (Aware t)
            | TsMalformed => now <- utcnow ;; ret (Naive now)
            end ;;
      keep <- datetime_ge ts cutoff ;;
      prune_loop cutoff rest (if keep then new_hist ++ [item] else new_hist)
  end.

(** [prune_history(state)]. *)
Definition prune_history : M unit :=
  now <- utcnow ;;
  let cutoff := now - ten_days in
  h <- gets (fun w => history (st w)) ;;
  new_hist <- prune_loop cutoff h [] ;;
  modify (fun w => with_state (set_history new_hist (st w)) w).

(** *** Python built-ins that are taken as given *)

(** [float(s)] on a string ([None]: [ValueError]). *)
Variable float_of_str : string -> option float.

(** [str(v)]. *)
Variable py_str : pyval -> string.

(** [float(v)]: [None] when it raises ([TypeError], [ValueError],
    [OverflowError]). *)
Definition to_float (v : pyval) : option float :=
  match v with
  | PFloat f => Some f
  | PInt z => float_of_int z
  | PBool b => float_of_int (Z.b2z b)
  | PStr s => float_of_str s
  | PNone | PList _ | PDict _ => None
  end.

Definition py_float (v : pyval) : M float := lift (to_float v).

(** [ad.get]: only a dictionary has the method. *)
Definition as_dict (v : pyval) : M (list (string * pyval)) :=
  match v with PDict d => ret d | _ => raise end.

(** [x in s] for a set [s]: [TypeError] (here [None]) on an unhashable
    [x]. *)
Definition is_seen (x : pyval) (s : list pyval) : option bool :=
  if hashable x then Some (existsb (py_eqb x) s) else None.

Definition set_mem (x : pyval) (s : list pyval) : M bool :=
  lift (is_seen x s).

(** [s.add(x)]. *)
Definition set_add (x : pyval) (s : list pyval) : list pyval :=
  if existsb (py_eqb x) s then s else x :: s.

(** [s.pop()] removes an arbitrary member: which one is the choice of the
    hash table, taken as given. *)
Variable pick : list pyval -> nat.

Definition set_pop (s : list pyval) : list pyval :=
  let i := (pick s mod List.length s)%nat in firstn i s ++ skipn (S i) s.

(** *** The market gateway *)

(** The result of calling a method of the SDK client. *)
Inductive call_result : Type :=
| Returned (v : pyval)
| Raised.

(** A method of the client, called with keyword arguments; its answer may
    change from call to call. *)
Definition method : Type := list (string * pyval) -> nat -> call_result.

(** [self.client]: [getattr(self.client, name, None)] for each name;
    [None] when [build_bybit_client] returned [None]. *)
Variable client : option (string -> option method).

Definition call (m : method) (kwargs : list (string * pyval))
  : M call_result :=
  fun w => (Some (m kwargs (tick w)), with_tick (S (tick w)) w).

Fixpoint ads_via (c : string -> option method) (names : list string)
    (params : list (string * pyval)) : M (list pyval) :=
  match names with
  | [] => ret []
  | method_name :: rest =>
      match c method_name with
      | None => ads_via c rest params
      | Some m =>
          resp <- call m params ;;
          match resp with
          | Returned (PDict d) =>
              let items :=
                py_or (py_or (py_or (dict_get d "items") (dict_get d "data"))
                             (dict_get d "ads")) (dict_get d "result") in
              match items with
              | PList l => ret l
              | _ => ads_via c rest params
              end
          | Returned (PList l) => ret l
          | Returned _ | Raised => ads_via c rest params
          end
      end
  end.

(** [BotEngine.get_online_ads]. *)
Definition get_online_ads : M (list pyval) :=
  match client with
  | None => ret []
  | Some c =>
      coin <- gets (fun w => market_coin (st w)) ;;
      fiat <- gets (fun w => market_fiat (st w)) ;;
      side <- gets (fun w => market_watch_side (st w)) ;;
      ads_via c ["get_online_ads"; "get_ads_list"; "get_ads"; "get_ads_online"]
        [("coin", coin); ("fiat", fiat); ("side", side);
         ("page", PInt 1); ("limit", PInt 50)]
  end.

Definition order_method_names : list string :=
  ["create_order"; "create_buy_order"; "create_order_v5"; "create_order_v1";
   "post_order"; "place_order"].

Fixpoint order_via (c : string -> option method) (names : list string)
    (params : list (string * pyval)) : M pyval :=
  match names with
  | [] => ret PNone
  | method_name :: rest =>
      match c method_name with
      | None => order_via c rest params
      | Some m =>
          resp <- call m params ;;
          match resp with
          | Returned v => ret v
          | Raised => order_via c rest params
          end
      end
  end.

(** [BotEngine.create_buy_order(ad, amount_fiat)], for a dictionary [ad]. *)
Definition create_buy_order (ad : list (string * pyval)) (amount_fiat : Z)
  : M pyval :=
  match client with
  | None => ret PNone
  | Some c =>
      let ad_id :=
        py_or (py_or (py_or (dict_get ad "adId") (dict_get ad "advertisementId"))
                     (dict_get ad "id")) (dict_get ad "ad_id") in
      if negb (truthy ad_id) then ret PNone
      else order_via c order_method_names
             [("advertisementId", ad_id);
              ("amount", PStr (py_str (PInt amount_fiat)))]
  end.

(** *** The matching loop *)

(** The literal [1e18]. *)
Definition float_1e18 : float :=
  Eval vm_compute in binary_normalize 53 1024 (10 ^ 18) 0 false.

(** [price_str = ad.get("price") or ad.get("unitPrice") or ad.get("rate")] *)
Definition price_str_of (ad : list (string * pyval)) : pyval :=
  py_or (py_or (dict_get ad "price") (dict_get ad "unitPrice"))
        (dict_get ad "rate").

(** [ad.get("adId") or ad.get("advertisementId") or ad.get("id")
     or str(price) + "_" + str(ad.get("sellerId", ""))] *)
Definition ad_id_of (ad : list (string * pyval)) (price : float) : pyval :=
  py_or (py_or (py_or (dict_get ad "adId") (dict_get ad "advertisementId"))
               (dict_get ad "id"))
        (PStr (String.append (py_str (PFloat price))
                 (String.append "_"
                    (py_str (dict_get_default ad "sellerId" (PStr "")))))).

(** [ad.get("minLimit") or ad.get("min") or 0] *)
Definition min_limit_of (ad : list (string * pyval)) : pyval :=
  py_or (py_or (dict_get ad "minLimit") (dict_get ad "min")) (PInt 0).

(** [ad.get("maxLimit") or ad.get("max") or 1e18] *)
Definition max_limit_of (ad : list (string * pyval)) : pyval :=
  py_or (py_or (dict_get ad "maxLimit") (dict_get ad "max"))
        (PFloat float_1e18).

(** [pmin <= price <= pmax] *)
Definition in_band (pmin pmax price : float) : bool :=
  float_le pmin price && float_le price pmax.

(** [int(self.state.get("min_buy", 10000))] *)
Definition configured_min_buy (s : state) : Z :=
  match min_buy s with Some n => n | None => 10000 end.

(** [if amount_fiat < ad_min: amount_fiat = int(ad_min)]; [None] when
    [int] raises. *)
Definition clamp_up (amount_fiat : Z) (ad_min : float) : option Z :=
  if int_lt_float amount_fiat ad_min then int_of_float ad_min
  else Some amount_fiat.

(** [order_id = None; if isinstance(resp, dict): order_id =
    resp.get("orderId") or (resp.get("data") or {}).get("orderId")];
    [.get] on a [data] that is not a dictionary raises [AttributeError]
    (here [None]). *)
Definition order_id_of (resp : pyval) : option pyval :=
  match resp with
  | PDict r =>
      if truthy (dict_get r "orderId") then Some (dict_get r "orderId")
      else match py_or (dict_get r "data") (PDict []) with
           | PDict data => Some (dict_get data "orderId")
           | _ => None
           end
  | _ => Some PNone
  end.

(** Lines 236-278: the order, the record, the notification, the mark.
    The record's timestamp is [datetime.utcnow().isoformat()], a text that
    parses back to the naive instant it was made from. *)
Definition place_and_record (ad : list (string * pyval)) (ad_id : pyval)
    (price : float) (amount_fiat : Z) : M unit :=
  resp <- create_buy_order ad amount_fiat ;;
  emit (EvOrder (PDict ad) amount_fiat resp) ;;;
  ts <- utcnow ;;
  let record :=
    {| order_response := resp; ad_id := ad_id; ad_price := price;
       ad_raw := PDict ad; amount := amount_fiat;
       timestamp_of := TsNaive ts |} in
  modify (fun w => with_state (set_history (record :: history (st w)) (st w)) w) ;;;
  emit (EvRecord record) ;;;
  prune_history ;;;
  emit EvSave ;;;
  order_id <- lift (order_id_of resp) ;;
  emit (EvNotify ad_id price amount_fiat order_id) ;;;
  modify (fun w => with_seen (set_add ad_id (seen_ads w)) w) ;;;
  emit (EvSeen ad_id) ;;;
  n <- gets (fun w => List.length (seen_ads w)) ;;
  if (1000 <? n)%nat
  then modify (fun w => with_seen (set_pop (seen_ads w)) w)
  else ret tt.

(** The body of [for ad in ads], inside its [try]. *)
Definition ad_body (ad : pyval) : M unit :=
  d <- as_dict ad ;;
  let price_str := price_str_of d in
  if is_none price_str then ret tt else
  price <- py_float price_str ;;
  let ad_id := ad_id_of d price in
  seen <- gets seen_ads ;;
  already <- set_mem ad_id seen ;;
  if already then ret tt else
  pmin <- gets (fun w => price_range_min (st w)) ;;
  pmax <- gets (fun w => price_range_max (st w)) ;;
  if in_band pmin pmax price then
    amount_fiat <- gets (fun w => configured_min_buy (st w)) ;;
    ad_min <- py_float (min_limit_of d) ;;
    ad_max <- py_float (max_limit_of d) ;;
    amount_fiat <- lift (clamp_up amount_fiat ad_min) ;;
    if int_gt_float amount_fiat ad_max
    then emit (EvInfeasible ad_id amount_fiat ad_max)
    else place_and_record d ad_id price amount_fiat
  else ret tt.

(** One iteration of the loop: [try: ... except Exception: (log)]. *)
Definition process_ad (ad : pyval) : M unit := try_except (ad_body ad).

Fixpoint for_ads (ads : list pyval) : M unit :=
  match ads with
  | [] => ret tt
  | ad :: rest => process_ad ad ;;; for_ads rest
  end.

(** One pass of [while not self._stop_event.is_set()], without the sleeps:
    the run flag, the pruning, the fetch, and the loop over the listings,
    inside the outer [try]. *)
Definition worker_cycle : M unit :=
  try_except
    (running <- gets (fun w => bot_running (st w)) ;;
     if negb running then ret tt else
     prune_history ;;;
     ads <- get_online_ads ;;
     match ads with
     | [] => ret tt
     | _ => for_ads ads
     end).

(** *** Vocabulary for the properties *)

(** The record written for an order answered [resp] at instant [ts]. *)
Definition record_of (d : list (string * pyval)) (id : pyval) (price : float)
    (amt : Z) (resp : pyval) (ts : Z) : order_attempt :=
  {| order_response := resp; ad_id := id; ad_price := price;
     ad_raw := PDict d; amount := amt; timestamp_of := TsNaive ts |}.

(** [self.seen_ads] after [add] and the bounded [pop]. *)
Definition seen_after (id : pyval) (seen : list pyval) : list pyval :=
  let s := set_add id seen in
  if (1000 <? List.length s)%nat then set_pop s else s.

(** What the processing of one listing may append to the trace, for a band
    [[pmin, pmax]]: nothing; the note that the listing is infeasible; or the
    order for a listing whose price parses to a value inside the band, with
    the answer of [create_buy_order], followed by its record and the save, and then by the notification and
    the mark unless the extraction of the order identifier raised. *)
Inductive step_block (pmin pmax : float) : list event -> Prop :=
| block_none : step_block pmin pmax []
| block_infeasible id amt amax :
    step_block pmin pmax [EvInfeasible id amt amax]
| block_placed d price amt resp ts w0 w1 :
    is_none (price_str_of d) = false ->
    to_float (price_str_of d) = Some price ->
    in_band pmin pmax price = true ->
    create_buy_order d amt w0 = (Some resp, w1) ->
    step_block pmin pmax
      (EvOrder (PDict d) amt resp
       :: EvRecord (record_of d (ad_id_of d price) price amt resp ts)
       :: EvSave
       :: match order_id_of resp with
          | Some oid =>
              [EvNotify (ad_id_of d price) price amt oid;
               EvSeen (ad_id_of d price)]
          | None => []
          end).

End Engine.

(** The configuration: the state without its history. *)
Definition config_of (s : state) : state := set_history [] s.

(** An event that names a listing: the order placed against it, or the
    record written for it. *)
Definition concerns (ad : pyval) (e : event) : Prop :=
  match e with
  | EvOrder a _ _ => a = ad
  | EvRecord r => ad_raw r = ad
  | _ => False
  end.

(** The order-placement capability is unavailable: no client is configured,
    or every candidate method is missing or raises at every call. *)
Definition unavailable (client : option (string -> option method)) : Prop :=
  match client with
  | None => True
  | Some c =>
      forall name, In name order_method_names ->
        match c name with
        | None => True
        | Some m => forall kwargs n, m kwargs n = Raised
        end
  end.

(** The same world with another configured [max_buy]. *)
Definition with_max_buy (n : Z) (w : world) : world :=
  with_state (set_max_buy n (st w)) w.

(** A computation that never consults [max_buy]: run with another value, it
    returns the same and leaves the same world, that value apart. *)
Definition ignores_max_buy {A : Type} (m : M A) : Prop :=
  forall n w, m (with_max_buy n w) = (fst (m w), with_max_buy n (snd (m w))).

(** ** Pruning, stated without the monad *)

Definition is_aware (r : order_attempt) : bool :=
  match timestamp_of r with TsAware _ => true | _ => false end.

(** What the loop keeps for a given [cutoff] when the clock does not run
    backwards: a record whose timestamp does not parse, or parses to a naive
    instant no earlier than the cutoff. *)
Definition kept (cutoff : Z) (r : order_attempt) : bool :=
  match timestamp_of r with
  | TsNaive ts => cutoff <=? ts
  | TsAware _ => false
  | TsMalformed => true
  end.

(** A record is retained at reference time [t] when its timestamp does not
    parse, or parses to a naive instant no earlier than ten days before
    [t]. *)
Definition retained (t : Z) (r : order_attempt) : bool :=
  kept (t - ten_days) r.

(** [subseq l' l]: [l'] is [l] with some elements removed. *)
Inductive subseq {A : Type} : list A -> list A -> Prop :=
| subseq_nil : subseq [] []
| subseq_keep x l' l : subseq l' l -> subseq (x :: l') (x :: l)
| subseq_drop x l' l : subseq l' l -> subseq l' (x :: l).

(** A record is expired at reference time [t] when its timestamp is a naive
    instant more than ten days before [t]. *)
Definition expired (t : Z) (r : order_attempt) : Prop :=
  exists ts, timestamp_of r = TsNaive ts /\ ts < t - ten_days.

(** ** Sample data *)

Module Sample.

Definition fl (z : Z) : float :=
  match float_of_int z with Some f => f | None => S754_nan end.

(** The band and the amounts of [DEFAULT_STATE], the engine running. *)
Definition st0 : state :=
  {| market_coin := PStr "USDT"; market_fiat := PStr "NGN";
     market_watch_side := PStr "SELL";
     price_range_min := fl 1400; price_range_max := fl 1455;
     min_buy := Some 10000; max_buy := 1000000;
     bot_running := true; history := [] |}.

Definition w0 : world :=
  {| st := st0; seen_ads := []; tick := 0; trace := [] |}.

(** A clock that advances by one second per reading. *)
Definition clk (n : nat) : Z := 1700000000000000 + 1000000 * Z.of_nat n.

Definition no_parse (s : string) : option float := None.
Definition no_str (v : pyval) : string := "".
Definition first_member (s : list pyval) : nat := 0%nat.

(** A client whose [create_order] answers with the given value. *)
Definition answering (resp : pyval) : option (string -> option method) :=
  Some (fun name =>
          if String.eqb name "create_order"
          then Some (fun _ _ => Returned resp)
          else None).

(** A client with no order method that succeeds. *)
Definition failing : option (string -> option method) :=
  Some (fun name =>
          if String.eqb name "create_order"
          then Some (fun _ _ => Raised)
          else None).

(** A client whose [create_order] answers with an order identifier. *)
Definition accepted : pyval := PDict [("orderId", PStr "O1")].

(** An answer that wraps its payload in a list under ["data"]. *)
Definition wrapped : pyval := PDict [("data", PList [PStr "O1"])].

Definition old_record (ts : timestamp) : order_attempt :=
  {| order_response := PNone; ad_id := PStr "A0"; ad_price := fl 1420;
     ad_raw := PDict []; amount := 10000; timestamp_of := ts |}.

(** [n / 2] as a float. *)
Definition halves (n : Z) : float := binary_normalize 53 1024 n (-1) false.

(** A listing with the given identifier, price and limits. *)
Definition listing (id : string) (price : Z) (min_limit max_limit : pyval)
  : list (string * pyval) :=
  [("id", PStr id); ("price", PInt price);
   ("minLimit", min_limit); ("maxLimit", max_limit)].

(** The listing of the specification's scenario. *)
Definition A1 := listing "A1" 1420 (PInt 5000) (PInt 2000000).

(** A price outside the band. *)
Definition A2 := listing "A2" 1500 (PInt 5000) (PInt 2000000).

(** [minLimit] 12000, above the configured amount. *)
Definition A3 := listing "A3" 1420 (PInt 12000) (PInt 50000).

(** [minLimit] 12000.5. *)
Definition A4 := listing "A4" 1420 (PFloat (halves 24001)) (PInt 50000).

(** [maxLimit] 5000, below the configured amount. *)
Definition A5 := listing "A5" 1420 (PInt 1000) (PInt 5000).

(** [minLimit] 12000.5 and [maxLimit] 11000. *)
Definition A6 := listing "A6" 1420 (PFloat (halves 24001)) (PInt 11000).

(** [minLimit] -2.5. *)
Definition A7 := listing "A7" 1420 (PFloat (halves (-5))) (PInt 50000).

(** [minLimit] 6000 and [maxLimit] 7000. *)
Definition A8 := listing "A8" 1420 (PInt 6000) (PInt 7000).

(** [st0] with other amounts. *)
Definition with_amounts (lo hi : Z) : world :=
  {| st :=
       {| market_coin := PStr "USDT"; market_fiat := PStr "NGN";
          market_watch_side := PStr "SELL";
          price_range_min := fl 1400; price_range_max := fl 1455;
          min_buy := Some lo; max_buy := hi;
          bot_running := true; history := [] |};
     seen_ads := []; tick := 0; trace := [] |}.

(** A world that has already acted on [A1]. *)
Definition seen_A1 : world :=
  {| st := st0; seen_ads := [PStr "A1"]; tick := 0; trace := [] |}.

(** A client that lists the given advertisements and answers every order
    with the given value. *)
Definition market (ads : list pyval) (resp : call_result)
  : option (string -> option method) :=
  Some (fun name =>
          if String.eqb name "get_online_ads"
          then Some (fun _ _ => Returned (PList ads))
          else if String.eqb name "create_order"
          then Some (fun _ _ => resp)
          else None).

(** The engine with the sample clock and built-ins. *)
Definition process (client : option (string -> option method)) :=
  process_ad clk no_parse no_str first_member client.

Definition cycle (client : option (string -> option method)) :=
  worker_cycle clk no_parse no_str first_member client.

End Sample.

(** * The rest of the file: vocabulary and the chat side *)

(** ** One listing's events, with the amounts *)

Section Reports.

Variable float_of_str : string -> option float.
Variable py_str : pyval -> string.

(** What the processing of one listing appends to the trace under the
    configuration [s]: as [step_block], with the limits of the listing and
    the way the amount of the order was chosen. *)
Inductive order_block (s : state) : list event -> Prop :=
| oblock_none : order_block s []
| oblock_infeasible id amt amax : order_block s [EvInfeasible id amt amax]
| oblock_placed d price a_min a_max amt resp ts :
    is_none (price_str_of d) = false ->
    to_float float_of_str (price_str_of d) = Some price ->
    in_band (price_range_min s) (price_range_max s) price = true ->
    to_float float_of_str (min_limit_of d) = Some a_min ->
    to_float float_of_str (max_limit_of d) = Some a_max ->
    clamp_up (configured_min_buy s) a_min = Some amt ->
    int_gt_float amt a_max = false ->
    order_block s
      (EvOrder (PDict d) amt resp
       :: EvRecord (record_of d (ad_id_of py_str d price) price amt resp ts)
       :: EvSave
       :: match order_id_of resp with
          | Some oid =>
              [EvNotify (ad_id_of py_str d price) price amt oid;
               EvSeen (ad_id_of py_str d price)]
          | None => []
          end).

End Reports.

(** ** The gateway's fallback *)

(** The number of names, among [names], for which the client has a
    method: each of them costs one call when none before it answers. *)
Definition calls (c : string -> option method) (names : list string) : nat :=
  List.length
    (filter (fun n => match c n with Some _ => true | None => false end) names).

(** The listings that [get_online_ads] takes from an answer: a bare list, or
    the list held by [resp.get("items") or resp.get("data") or
    resp.get("ads") or resp.get("result")]. *)
Definition listings_in (resp : call_result) : option (list pyval) :=
  match resp with
  | Returned (PList l) => Some l
  | Returned (PDict d) =>
      match py_or (py_or (py_or (dict_get d "items") (dict_get d "data"))
                         (dict_get d "ads")) (dict_get d "result") with
      | PList l => Some l
      | _ => None
      end
  | _ => None
  end.

Definition listing_method_names : list string :=
  ["get_online_ads"; "get_ads_list"; "get_ads"; "get_ads_online"].

(** A name that never answers an order: the client has no such method, or
    the method raises at every call. *)
Definition raises_always (c : string -> option method) (name : string) : Prop :=
  match c name with
  | None => True
  | Some m => forall kwargs n, m kwargs n = Raised
  end.

(** A name that never gives listings: no such method, or no call of it
    returns an answer from which [get_online_ads] takes a list. *)
Definition lists_nothing (c : string -> option method) (name : string) : Prop :=
  match c name with
  | None => True
  | Some m => forall kwargs n, listings_in (m kwargs n) = None
  end.

(** [dict(coin=..., fiat=..., side=..., page=1, limit=50)]. *)
Definition listing_params (s : state) : list (string * pyval) :=
  [("coin", market_coin s); ("fiat", market_fiat s);
   ("side", market_watch_side s); ("page", PInt 1); ("limit", PInt 50)].

(** [ad.get("adId") or ad.get("advertisementId") or ad.get("id") or
    ad.get("ad_id")], the identifier that [create_buy_order] sends. *)
Definition placing_id (ad : list (string * pyval)) : pyval :=
  py_or (py_or (py_or (dict_get ad "adId") (dict_get ad "advertisementId"))
               (dict_get ad "id")) (dict_get ad "ad_id").

(** [{"advertisementId": ad_id, "amount": str(amount_fiat)}]. *)
Definition order_params (py_str : pyval -> string)
    (ad : list (string * pyval)) (amount_fiat : Z) : list (string * pyval) :=
  [("advertisementId", placing_id ad);
   ("amount", PStr (py_str (PInt amount_fiat)))].


(** ** What a run leaves behind *)

(** From [w] to [w'] the engine has emitted [new], kept its configuration,
    added to the history only what it recorded and to the seen set only what
    it marked, and kept the seen set within its bound. *)
Definition advances (w w' : world) (new : list event) : Prop :=
  trace w' = trace w ++ new /\
  config_of (st w') = config_of (st w) /\
  (forall r, In r (history (st w')) ->
     In r (history (st w)) \/ In (EvRecord r) new) /\
  (forall x, In x (seen_ads w') ->
     In x (seen_ads w) \/ In (EvSeen x) new) /\
  ((List.length (seen_ads w) <= 1000)%nat ->
   (List.length (seen_ads w') <= 1000)%nat).

(** ** [load_state] *)

(** [DEFAULT_STATE]; [admin_id] is read from the environment. *)
Definition DEFAULT_STATE (admin_id : Z) : list (string * pyval) :=
  [("market", PDict [("coin", PStr "USDT"); ("fiat", PStr "NGN");
                     ("side", PStr "BUY"); ("watch_side", PStr "SELL")]);
   ("price_range",
    PDict [("min", PFloat (binary_normalize 53 1024 1400 0 false));
           ("max", PFloat (binary_normalize 53 1024 1455 0 false))]);
   ("min_buy", PInt 10000);
   ("max_buy", PInt 1000000);
   ("auto_start", PBool false);
   ("bot_running", PBool false);
   ("admin_id", PInt admin_id);
   ("history", PList [])].

(** [k in st] for a string [k]: a key of a dictionary, a member of a list, a
    substring of a string; [TypeError] (here [None]) on the other values. *)
Definition py_contains (k : string) (st : pyval) : option bool :=
  match st with
  | PDict d => Some (match lookup d k with Some _ => true | None => false end)
  | PList l => Some (existsb (py_eqb (PStr k)) l)
  | PStr t => Some (match String.index 0 k t with Some _ => true | None => false end)
  | PNone | PBool _ | PInt _ | PFloat _ => None
  end.

(** [d[k] = v] on a dictionary: the value is replaced in place, a new key
    goes to the end. *)
Fixpoint dict_set (d : list (string * pyval)) (k : string) (v : pyval)
  : list (string * pyval) :=
  match d with
  | [] => [(k, v)]
  | (k', v') :: rest =>
      if String.eqb k k' then (k', v) :: rest else (k', v') :: dict_set rest k v
  end.

(** [st[k] = v] for a string [k]: only a dictionary takes it. *)
Definition set_item (st : pyval) (k : string) (v : pyval) : option pyval :=
  match st with
  | PDict d => Some (PDict (dict_set d k v))
  | _ => None
  end.

(** [for k, v in DEFAULT_STATE.items(): if k not in st: st[k] = v]. *)
Fixpoint backfill (defaults : list (string * pyval)) (st : pyval)
  : option pyval :=
  match defaults with
  | [] => Some st
  | (k, v) :: rest =>
      match py_contains k st with
      | None => None
      | Some true => backfill rest st
      | Some false =>
          match set_item st k v with
          | None => None
          | Some st' => backfill rest st'
          end
      end
  end.

(** [load_state()]. The file is [None] when [STATE_FILE] does not exist,
    [Some None] when opening or [json.load] raises, and otherwise the value
    that [json.load] returns. *)
Definition load_state (admin_id : Z) (file : option (option pyval)) : pyval :=
  match file with
  | Some (Some st) =>
      match backfill (DEFAULT_STATE admin_id) st with
      | Some st' => st'
      | None => PDict (DEFAULT_STATE admin_id)
      end
  | Some None | None => PDict (DEFAULT_STATE admin_id)
  end.

(** ** [handle_text] *)

Definition set_price_range (pmin pmax : float) (s : state) : state :=
  {| market_coin := market_coin s; market_fiat := market_fiat s;
     market_watch_side := market_watch_side s;
     price_range_min := pmin; price_range_max := pmax;
     min_buy := min_buy s; max_buy := max_buy s;
     bot_running := bot_running s; history := history s |}.

Definition set_min_buy (n : Z) (s : state) : state :=
  {| market_coin := market_coin s; market_fiat := market_fiat s;
     market_watch_side := market_watch_side s;
     price_range_min := price_range_min s;
     price_range_max := price_range_max s;
     min_buy := Some n; max_buy := max_buy s;
     bot_running := bot_running s; history := history s |}.

(** [s.split(sep, 1)] for a one-character [sep]: the text before the first
    [sep], and the text after it when there is one. *)
Fixpoint split_once (sep : Ascii.ascii) (s : string) : string * option string :=
  match s with
  | EmptyString => (EmptyString, None)
  | String c rest =>
      if Ascii.eqb c sep then (EmptyString, Some rest)
      else let (before, after) := split_once sep rest in
           (String c before, after)
  end.

(** [s.replace(c, "")] for a one-character [c]. *)
Fixpoint remove_char (c : Ascii.ascii) (s : string) : string :=
  match s with
  | EmptyString => EmptyString
  | String c' rest =>
      if Ascii.eqb c' c then remove_char c rest
      else String c' (remove_char c rest)
  end.

(** What [handle_text] answers. *)
Inductive reply : Type :=
| RangeSet (pmin pmax : float)       (* "Price range set to ..." *)
| MinAboveMax                        (* "Min must be <= Max. Try again." *)
| RangeParseFailed                   (* "Failed to parse range. ..." *)
| MinBuySet (n : Z)                  (* "Min buy set to ..." *)
| MaxBuySet (n : Z)                  (* "Max buy set to ..." *)
| NotUnderstood                      (* "I didn't understand that. ..." *).

Section Chat.

(** Built-ins of [str] that depend on the Unicode tables, taken as given:
    [s.strip()], [s.isdigit()], and [int(s)] ([None]: [ValueError]). *)
Variable strip : string -> string.
Variable isdigit : string -> bool.
Variable int_of_str : string -> option Z.
Variable float_of_str : string -> option float.

(** [await update.message.reply_text(...)]: whether the [n]-th send of the
    handler returns; [false]: it raises. *)
Variable delivers : nat -> reply -> bool.

(** The answer that reached the chat after the [n]-th send; [None]: the
    send raised, and the exception leaves the handler. *)
Definition answer (n : nat) (r : reply) : option reply :=
  if delivers n r then Some r else None.

(** Lines 457-468: a message of digits. When [int] raises nothing catches
    it, and nothing was changed. *)
Definition handle_number (text : string) (s : state)
  : state * bool * option reply :=
  match int_of_str text with
  | None => (s, false, None)
  | Some n =>
      if n <=? max_buy s
      then (set_min_buy n s, true, answer 0 (MinBuySet n))
      else (set_max_buy n s, true, answer 0 (MaxBuySet n))
  end.

(** Lines 439-455, inside the [try]: the two numbers are parsed, the band
    is set and saved, and the confirmation is sent. Whatever raises there,
    a send included, is caught, and ["Failed to parse range"] is sent
    instead. *)
Definition handle_range (a b : string) (s : state)
  : state * bool * option reply :=
  match float_of_str (strip a) with
  | None => (s, false, answer 0 RangeParseFailed)
  | Some pmin =>
      match float_of_str (strip b) with
      | None => (s, false, answer 0 RangeParseFailed)
      | Some pmax =>
          if float_le pmin pmax
          then
            let s' := set_price_range pmin pmax s in
            if delivers 0 (RangeSet pmin pmax)
            then (s', true, Some (RangeSet pmin pmax))
            else (s', true, answer 1 RangeParseFailed)
          else
            if delivers 0 MinAboveMax
            then (s, false, Some MinAboveMax)
            else (s, false, answer 1 RangeParseFailed)
      end
  end.

(** [handle_text]: the new state, whether [save_state] was called, and the
    answer that reached the chat ([None]: an exception left the
    handler). *)
Definition handle_text (message : option string) (s : state)
  : state * bool * option reply :=
  let text := strip (match message with Some t => t | None => "" end) in
  let numeric :=
    if isdigit text then handle_number text s
    else (s, false, answer 0 NotUnderstood) in
  match split_once "-"%char text with
  | (a, Some b) =>
      if isdigit (remove_char "."%char (strip a))
         && isdigit (remove_char "."%char (strip b))
      then handle_range a b s
      else numeric
  | (_, None) => numeric
  end.

End Chat.

(** ** [button_router]: the dispatch on the callback data *)

Inductive action : Type :=
| ShowSettings | StartBot | StopBot | ShowHistory | ShowStatus
| AskRange | AskMinBuy | AskMaxBuy | ToggleAutostart
| MarkPaid (order_id : string)
| ViewAd (id : string)
| BackMain
| UnknownAction.

(** [data.split(":", 1)[1]], for a [data] that holds a colon. *)
Definition after_colon (data : string) : string :=
  match snd (split_once ":"%char data) with Some t => t | None => "" end.

Definition route (data : string) : action :=
  if String.eqb data "settings" then ShowSettings
  else if String.eqb data "start_bot" then StartBot
  else if String.eqb data "stop_bot" then StopBot
  else if String.eqb data "history" then ShowHistory
  else if String.eqb data "status" then ShowStatus
  else if String.eqb data "set_range" then AskRange
  else if String.eqb data "set_min_buy" then AskMinBuy
  else if String.eqb data "set_max_buy" then AskMaxBuy
  else if String.eqb data "toggle_autostart" then ToggleAutostart
  else if String.prefix "markpaid:" data then MarkPaid (after_colon data)
  else if String.prefix "viewad:" data then ViewAd (after_colon data)
  else if String.eqb data "back_main" then BackMain
  else UnknownAction.

(** [for item in state.get("history", []): if item.get("ad", {}).get("id")
    == ad_id: ... return]: the first record whose identifier equals the
    text. *)
Definition view_ad (id : string) (hist : list order_attempt)
  : option order_attempt :=
  find (fun r => py_eqb (ad_id r) (PStr id)) hist.

Section Buttons.

Variable py_str : pyval -> string.

(** [callback_data=f"markpaid:{order_id or 'none'}"] (worker_loop, line
    263). *)
Definition markpaid_data (order_id : pyval) : string :=
  String.append "markpaid:" (py_str (py_or order_id (PStr "none"))).

(** [callback_data=f"viewad:{ad_id}"] (worker_loop, line 264). *)
Definition viewad_data (id : pyval) : string :=
  String.append "viewad:" (py_str id).

End Buttons.

(** Sample data for these. *)
Module Sample2.


(** A client whose first order method raises and whose second answers. *)
Definition second_answers (resp : pyval) : string -> option method :=
  fun name =>
    if String.eqb name "create_order" then Some (fun _ _ => Raised)
    else if String.eqb name "create_buy_order"
    then Some (fun _ _ => Returned resp)
    else None.

(** A client whose first listing method answers with an empty ["items"]
    and whose second wraps the listings under ["data"]. *)
Definition second_lists (ads : list pyval) : string -> option method :=
  fun name =>
    if String.eqb name "get_online_ads"
    then Some (fun _ _ => Returned (PDict [("items", PList [])]))
    else if String.eqb name "get_ads_list"
    then Some (fun _ _ => Returned (PDict [("data", PList ads)]))
    else None.


(** A world whose seen set holds [n] numbers. *)
Definition crowded (n : nat) : world :=
  {| st := Sample.st0; seen_ads := map (fun k => PInt (Z.of_nat k)) (seq 0 n);
     tick := 0; trace := [] |}.

(** A world with two old records, one of them with a timestamp that does
    not parse. *)
Definition aged : world :=
  {| st := set_history [Sample.old_record (TsNaive 0);
                        Sample.old_record TsMalformed] Sample.st0;
     seen_ads := []; tick := 0; trace := [] |}.

(** The built-ins of [handle_text] on ASCII text without surrounding blanks:
    [isdigit] and [int] on decimal digits. *)
Definition digit_of (c : Ascii.ascii) : option Z :=
  let n := nat_of_ascii c in
  if ((48 <=? n) && (n <=? 57))%nat then Some (Z.of_nat (n - 48)) else None.

Fixpoint digits_value (acc : Z) (s : string) : option Z :=
  match s with
  | EmptyString => Some acc
  | String c rest =>
      match digit_of c with
      | Some d => digits_value (10 * acc + d) rest
      | None => None
      end
  end.

Definition ascii_isdigit (s : string) : bool :=
  match s with
  | EmptyString => false
  | _ => match digits_value 0 s with Some _ => true | None => false end
  end.

Definition ascii_int (s : string) : option Z :=
  if ascii_isdigit s then digits_value 0 s else None.

(** [float] on the texts of whole numbers. *)
Definition whole_float (s : string) : option float :=
  match ascii_int s with Some z => float_of_int z | None => None end.

Definition as_is (s : string) : string := s.

(** Every send is delivered; the first send raises. *)
Definition all_delivered (n : nat) (r : reply) : bool := true.

Definition first_send_fails (n : nat) (r : reply) : bool :=
  match n with O => false | S _ => true end.

End Sample2.

(** * Properties *)

(** ** Integers against floats, by value *)

Section Numbers.

Lemma Z_compare_float_value z f q :
  float_value f = Some q -> Z_compare_float z f = Some (inject_Z z ?= q)%Q.
Proof.
  destruct f as [s|s| |s m e]; simpl; try discriminate; intros [= <-].
  - unfold Qcompare; simpl. now rewrite Z.mul_1_r.
  - destruct e as [|p|p]; unfold Qcompare, dyadic; simpl; f_equal.
    + now rewrite !Z.mul_1_r.
    + now rewrite !Z.mul_1_r.
    + now rewrite Z.mul_1_r.
Qed.

(** [z < f] is the order of the values. *)
Lemma int_lt_float_value z f q :
  float_value f = Some q -> (int_lt_float z f = true <-> (inject_Z z < q)%Q).
Proof.
  intros H. unfold int_lt_float. rewrite (Z_compare_float_value z f q H).
  rewrite Qlt_alt. destruct (inject_Z z ?= q)%Q; split; congruence.
Qed.

(** [z > f] is the order of the values. *)
Lemma int_gt_float_value z f q :
  float_value f = Some q -> (int_gt_float z f = true <-> (q < inject_Z z)%Q).
Proof.
  intros H. unfold int_gt_float. rewrite (Z_compare_float_value z f q H).
  rewrite Qgt_alt. destruct (inject_Z z ?= q)%Q; split; congruence.
Qed.

(** [int(f)] is the floor of a value that is not negative. *)
Lemma int_of_float_floor f q :
  float_value f = Some q -> (0 <= q)%Q -> int_of_float f = Some (Qfloor q).
Proof.
  destruct f as [s|s| |s m e]; simpl; try discriminate; intros [= <-] Hq.
  - reflexivity.
  - f_equal. destruct e as [|p|p]; unfold dyadic; simpl.
    + now rewrite Z.div_1_r.
    + now rewrite Z.div_1_r.
    + apply Z.quot_div_nonneg; [|reflexivity].
      unfold Qle in Hq. simpl in Hq. lia.
Qed.

(** [int(f)] is the value itself when that is an integer. *)
Lemma int_of_float_integral f q z :
  float_value f = Some q -> (q == inject_Z z)%Q -> int_of_float f = Some z.
Proof.
  destruct f as [s|s| |s m e]; simpl; try discriminate; intros [= <-] Hq.
  - unfold Qeq in Hq. simpl in Hq. f_equal. lia.
  - f_equal. destruct e as [|p|p]; unfold dyadic, Qeq in Hq; simpl in Hq.
    + lia.
    + lia.
    + rewrite Z.mul_1_r in Hq. rewrite Hq. apply Z.quot_mul. discriminate.
Qed.

Lemma floor_below_nonintegral q :
  ~ (q == inject_Z (Qfloor q))%Q -> (inject_Z (Qfloor q) < q)%Q.
Proof.
  intros H. destruct (Qle_lt_or_eq _ _ (Qfloor_le q)) as [Hlt|Heq]; [exact Hlt|].
  exfalso. apply H. now symmetry.
Qed.

End Numbers.

Section Facts.

Variable clock : nat -> Z.
Variable float_of_str : string -> option float.
Variable py_str : pyval -> string.
Variable pick : list pyval -> nat.
Variable client : option (string -> option method).

(** ** The monad *)

Lemma bind_ret_l {A B : Type} (a : A) (k : A -> M B) :
  bind (ret a) k = k a.
Proof. reflexivity. Qed.

Lemma bind_some {A B : Type} (m : M A) (k : A -> M B) w a w' :
  m w = (Some a, w') -> bind m k w = k a w'.
Proof. intros H. unfold bind. now rewrite H. Qed.

Lemma bind_none {A B : Type} (m : M A) (k : A -> M B) w w' :
  m w = (None, w') -> bind m k w = (None, w').
Proof. intros H. unfold bind. now rewrite H. Qed.

Lemma with_tick_same w : with_tick (tick w) w = w.
Proof. now destruct w. Qed.

(** ** [prune_history] *)

(** The loop only advances the tick, and raises exactly when it meets an
    offset-aware timestamp. *)
Lemma prune_loop_raises cutoff items :
  existsb is_aware items = true ->
  forall acc w, exists n, (tick w <= n)%nat /\
    prune_loop clock cutoff items acc w = (None, with_tick n w).
Proof.
  induction items as [|item rest IH]; simpl; [discriminate|].
  intros Ha acc w. unfold is_aware in Ha at 1.
  destruct (timestamp_of item) as [t|t|] eqn:Ets; simpl in Ha.
  - destruct (IH Ha (if cutoff <=? t then acc ++ [item] else acc) w)
      as (n & Hn & E).
    exists n. split; [exact Hn|]. unfold bind; simpl. exact E.
  - exists (tick w). split; [lia|]. unfold bind; simpl.
    now rewrite with_tick_same.
  - destruct (IH Ha (if cutoff <=? clock (tick w) then acc ++ [item] else acc)
                (with_tick (S (tick w)) w)) as (n & Hn & E).
    exists n. simpl in Hn. split; [lia|]. unfold bind; simpl. exact E.
Qed.

(** Without such a timestamp it returns the accumulator followed by some of
    the items, in their order. *)
Lemma prune_loop_returns cutoff items :
  existsb is_aware items = false ->
  forall acc w, exists n h, (tick w <= n)%nat /\ subseq h items /\
    prune_loop clock cutoff items acc w = (Some (acc ++ h), with_tick n w).
Proof.
  induction items as [|item rest IH]; simpl.
  - intros _ acc w. exists (tick w), []. split; [lia|]. split; [constructor|].
    now rewrite app_nil_r, with_tick_same.
  - intros Ha acc w. apply orb_false_iff in Ha. destruct Ha as [Hi Ha].
    unfold is_aware in Hi.
    destruct (timestamp_of item) as [t|t|] eqn:Ets; try discriminate.
    + destruct (IH Ha (if cutoff <=? t then acc ++ [item] else acc) w)
        as (n & h & Hn & Hs & E).
      unfold bind; simpl. rewrite E.
      destruct (cutoff <=? t).
      * exists n, (item :: h). split; [exact Hn|]. split; [now constructor|].
        now rewrite <- app_assoc.
      * exists n, h. split; [exact Hn|]. split; [now constructor|]. reflexivity.
    + destruct (IH Ha (if cutoff <=? clock (tick w) then acc ++ [item] else acc)
                  (with_tick (S (tick w)) w)) as (n & h & Hn & Hs & E).
      simpl in Hn. unfold bind; simpl. rewrite E.
      destruct (cutoff <=? clock (tick w)).
      * exists n, (item :: h). split; [lia|]. split; [now constructor|].
        now rewrite <- app_assoc.
      * exists n, h. split; [lia|]. split; [now constructor|]. reflexivity.
Qed.

(** When no later reading of the clock is below the cutoff, what it keeps
    is exactly [filter (kept cutoff)]. *)
Lemma prune_loop_exact cutoff items :
  existsb is_aware items = false ->
  forall acc w,
    (forall n, (tick w <= n)%nat -> cutoff <= clock n) ->
    exists n, (tick w <= n)%nat /\
      prune_loop clock cutoff items acc w
        = (Some (acc ++ filter (kept cutoff) items), with_tick n w).
Proof.
  induction items as [|item rest IH]; simpl.
  - intros _ acc w _. exists (tick w). split; [lia|].
    now rewrite app_nil_r, with_tick_same.
  - intros Ha acc w Hc. apply orb_false_iff in Ha. destruct Ha as [Hi Ha].
    unfold is_aware in Hi. unfold kept at 1.
    destruct (timestamp_of item) as [t|t|] eqn:Ets; try discriminate.
    + destruct (IH Ha (if cutoff <=? t then acc ++ [item] else acc) w Hc)
        as (n & Hn & E).
      exists n. split; [exact Hn|]. unfold bind; simpl. rewrite E.
      destruct (cutoff <=? t); [now rewrite <- app_assoc | reflexivity].
    + assert (Hnow : (cutoff <=? clock (tick w)) = true).
      { apply Z.leb_le, Hc. lia. }
      destruct (IH Ha (acc ++ [item]) (with_tick (S (tick w)) w)) as (n & Hn & E).
      { intros n Hn. apply Hc. simpl in Hn. lia. }
      simpl in Hn. exists n. split; [lia|]. unfold bind; simpl.
      rewrite Hnow, E. now rewrite <- app_assoc.
Qed.

Lemma prune_history_raises w :
  existsb is_aware (history (st w)) = true ->
  exists n, (tick w < n)%nat /\
    prune_history clock w = (None, with_tick n w).
Proof.
  intros Ha. unfold prune_history, bind, utcnow, gets; simpl.
  destruct (prune_loop_raises (clock (tick w) - ten_days) _ Ha []
              (with_tick (S (tick w)) w)) as (n & Hn & E).
  simpl in Hn. rewrite E. exists n. split; [lia | reflexivity].
Qed.

Lemma prune_history_returns w :
  existsb is_aware (history (st w)) = false ->
  exists n h, (tick w < n)%nat /\ subseq h (history (st w)) /\
    prune_history clock w
      = (Some tt, with_tick n (with_state (set_history h (st w)) w)).
Proof.
  intros Ha. unfold prune_history, bind, utcnow, gets, modify; simpl.
  destruct (prune_loop_returns (clock (tick w) - ten_days) _ Ha []
              (with_tick (S (tick w)) w)) as (n & h & Hn & Hs & E).
  simpl in Hn. rewrite E. exists n, h. split; [lia|]. split; [exact Hs|].
  reflexivity.
Qed.

(** With a clock that never falls more than ten days behind its reading at
    the invocation, and no offset-aware timestamp in the history, the
    invocation keeps exactly the retained records, in their order. *)
Lemma prune_history_exact w :
  existsb is_aware (history (st w)) = false ->
  (forall n, (tick w < n)%nat -> clock (tick w) - ten_days <= clock n) ->
  exists n, (tick w < n)%nat /\
    prune_history clock w
      = (Some tt,
         with_tick n
           (with_state
              (set_history (filter (retained (clock (tick w))) (history (st w)))
                 (st w)) w)).
Proof.
  intros Ha Hc. unfold prune_history, bind, utcnow, gets, modify; simpl.
  destruct (prune_loop_exact (clock (tick w) - ten_days) _ Ha []
              (with_tick (S (tick w)) w)) as (n & Hn & E).
  { intros n Hn. apply Hc. simpl in Hn. lia. }
  simpl in Hn. rewrite E. exists n. split; [lia | reflexivity].
Qed.

(** So, under those two conditions, the history after an invocation at
    reference time [t] holds exactly the prior records that are retained at
    [t]: stamped no earlier than ten days before [t], or with a timestamp
    that does not parse. *)
Lemma prune_history_retains_exactly w r :
  existsb is_aware (history (st w)) = false ->
  (forall n, (tick w < n)%nat -> clock (tick w) - ten_days <= clock n) ->
  (In r (history (st (exec (prune_history clock) w))) <->
   In r (history (st w)) /\ retained (clock (tick w)) r = true).
Proof.
  intros Ha Hc. destruct (prune_history_exact w Ha Hc) as (n & _ & E).
  unfold exec. rewrite E. simpl. apply filter_In.
Qed.

(** A first record stamped no earlier than the cutoff is kept. *)
Lemma prune_history_keeps_head w r old ts :
  history (st w) = r :: old ->
  timestamp_of r = TsNaive ts ->
  clock (tick w) - ten_days <= ts ->
  existsb is_aware old = false ->
  exists n h, (tick w < n)%nat /\ subseq h old /\
    prune_history clock w
      = (Some tt, with_tick n (with_state (set_history (r :: h) (st w)) w)).
Proof.
  intros Hh Hts Hc Ha. unfold prune_history, bind, utcnow, gets, modify; simpl.
  rewrite Hh. simpl. rewrite Hts. unfold bind; simpl.
  apply Z.leb_le in Hc. rewrite Hc.
  destruct (prune_loop_returns (clock (tick w) - ten_days) old Ha [r]
              (with_tick (S (tick w)) w)) as (n & h & Hn & Hs & E).
  simpl in Hn. rewrite E. exists n, h. split; [lia|]. split; [exact Hs|].
  reflexivity.
Qed.

Lemma subseq_In {A : Type} (l' l : list A) :
  subseq l' l -> forall x, In x l' -> In x l.
Proof.
  induction 1; intros y Hy; simpl in *; [contradiction| |auto].
  destruct Hy; auto.
Qed.

Lemma subseq_no_aware (l' l : list order_attempt) :
  subseq l' l -> existsb is_aware l = false -> existsb is_aware l' = false.
Proof.
  induction 1; simpl; intros Ha; [reflexivity| |].
  - apply orb_false_iff in Ha. destruct Ha as [-> Ha]. simpl. auto.
  - apply orb_false_iff in Ha. destruct Ha as [_ Ha]. auto.
Qed.

Lemma filter_subseq {A : Type} (f : A -> bool) (l : list A) :
  subseq (filter f l) l.
Proof.
  induction l as [|x l IH]; simpl; [constructor|].
  destruct (f x); now constructor.
Qed.

Lemma filter_idem {A : Type} (f : A -> bool) (l : list A) :
  filter f (filter f l) = filter f l.
Proof.
  induction l as [|x l IH]; simpl; [reflexivity|].
  destruct (f x) eqn:E; simpl; [rewrite E; now f_equal | exact IH].
Qed.

Lemma filter_all {A : Type} (l : list A) : filter (fun _ => true) l = l.
Proof. induction l; simpl; congruence. Qed.

(** A record that is not retained is expired, unless its timestamp carries
    an offset. *)
Lemma not_retained_expired t r :
  retained t r = false -> is_aware r = false -> expired t r.
Proof.
  unfold retained, kept, is_aware, expired.
  destruct (timestamp_of r) as [ts|ts|]; try discriminate.
  intros H _. exists ts. split; [reflexivity|]. apply Z.leb_gt in H. exact H.
Qed.

Lemma no_aware_In (l : list order_attempt) r :
  existsb is_aware l = false -> In r l -> is_aware r = false.
Proof.
  intros H Hin. destruct (is_aware r) eqn:E; [|reflexivity].
  assert (existsb is_aware l = true) by (apply existsb_exists; eauto).
  congruence.
Qed.

End Facts.

(** ** Pruning at a fixed reference time *)

Section FixedTime.

Variable t : Z.

Local Abbreviation prune := (prune_history (fun _ => t)).

(** At a fixed reference time, an invocation either raises and leaves the
    history as it is, or keeps exactly the retained records. *)
Lemma prune_fixed w :
  exists n,
    exec prune w
    = with_tick n
        (with_state
           (set_history
              (if existsb is_aware (history (st w)) then history (st w)
               else filter (retained t) (history (st w))) (st w)) w).
Proof.
  unfold exec. destruct (existsb is_aware (history (st w))) eqn:Ha.
  - destruct (prune_history_raises (fun _ => t) w Ha) as (n & _ & E).
    rewrite E. exists n. simpl. now destruct w as [[] ? ? ?].
  - destruct (prune_history_exact (fun _ => t) w Ha) as (n & _ & E).
    { intros. unfold ten_days. lia. }
    rewrite E. exists n. reflexivity.
Qed.

(** C8. Pruning is idempotent: at a fixed reference time [t], for every
    world (hence every history), pruning twice leaves the same history as
    pruning once; and one pruning changes nothing but the history (and the
    count of clock readings), from which it only removes records, every one
    of them expired. *)
Theorem prune_history_idempotent (w : world) :
  history (st (exec prune (exec prune w))) = history (st (exec prune w)) /\
  exists n keep,
    exec prune w
      = with_tick n
          (with_state (set_history (filter keep (history (st w))) (st w)) w) /\
    forall r, In r (history (st w)) -> keep r = false -> expired t r.
Proof.
  split.
  - destruct (prune_fixed w) as (n & E). rewrite E.
    destruct (prune_fixed
                (with_tick n
                   (with_state
                      (set_history
                         (if existsb is_aware (history (st w))
                          then history (st w)
                          else filter (retained t) (history (st w))) (st w)) w)))
      as (n' & E').
    rewrite E'. simpl.
    destruct (existsb is_aware (history (st w))) eqn:Ha.
    + now rewrite Ha.
    + rewrite (subseq_no_aware _ _ (filter_subseq (retained t) _) Ha).
      apply filter_idem.
  - destruct (prune_fixed w) as (n & E).
    destruct (existsb is_aware (history (st w))) eqn:Ha.
    + exists n, (fun _ => true). rewrite filter_all. split; [exact E|].
      discriminate.
    + exists n, (retained t). split; [exact E|].
      intros r Hin Hr. apply not_retained_expired; [exact Hr|].
      now apply (no_aware_In (history (st w))).
Qed.

End FixedTime.

(** ** One listing *)

Section Steps.

Variable clock : nat -> Z.
Variable float_of_str : string -> option float.
Variable py_str : pyval -> string.
Variable pick : list pyval -> nat.
Variable client : option (string -> option method).

Local Abbreviation create := (create_buy_order py_str client).
Local Abbreviation place := (place_and_record clock py_str pick client).
Local Abbreviation body := (ad_body clock float_of_str py_str pick client).
Local Abbreviation process := (process_ad clock float_of_str py_str pick client).
Local Abbreviation loop := (for_ads clock float_of_str py_str pick client).
Local Abbreviation cycle := (worker_cycle clock float_of_str py_str pick client).
Local Abbreviation seen_after := (seen_after pick).
Local Abbreviation step_block := (step_block float_of_str py_str client).

Lemma order_via_total c names params : forall w,
  exists resp n, (tick w <= n)%nat /\
    order_via c names params w = (Some resp, with_tick n w).
Proof.
  induction names as [|name rest IH]; intros w; simpl.
  - exists PNone, (tick w). split; [lia|]. now rewrite with_tick_same.
  - destruct (c name) as [m|]; [|apply IH].
    unfold bind, call; simpl. destruct (m params (tick w)) as [v|].
    + exists v, (S (tick w)). split; [lia | reflexivity].
    + destruct (IH (with_tick (S (tick w)) w)) as (resp & n & Hn & E).
      simpl in Hn. exists resp, n. split; [lia | exact E].
Qed.

(** [create_buy_order] always returns, and changes nothing but the count of
    gateway calls. *)
Lemma create_buy_order_total d amt w :
  exists resp n, (tick w <= n)%nat /\
    create d amt w = (Some resp, with_tick n w).
Proof.
  unfold create_buy_order. destruct client as [c|].
  - match goal with |- context [if ?b then _ else _] => destruct b end.
    + exists PNone, (tick w). split; [lia|]. unfold ret. now rewrite with_tick_same.
    + apply order_via_total.
  - exists PNone, (tick w). split; [lia|]. unfold ret. now rewrite with_tick_same.
Qed.

(** What lines 236-278 do in a world whose history holds no offset-aware
    timestamp: the order, the record, the pruning and the save always
    happen; the notification and the mark follow unless extracting the
    order identifier raises. *)
Lemma place_and_record_spec d id price amt w :
  existsb is_aware (history (st w)) = false ->
  exists resp n1 n2 h,
    create d amt w = (Some resp, with_tick n1 w) /\
    subseq h (record_of d id price amt resp (clock n1) :: history (st w)) /\
    (clock (S n1) - ten_days <= clock n1 ->
     exists h', h = record_of d id price amt resp (clock n1) :: h') /\
    place d id price amt w =
      match order_id_of resp with
      | Some oid =>
          (Some tt,
           {| st := set_history h (st w);
              seen_ads := seen_after id (seen_ads w);
              tick := n2;
              trace := trace w ++
                [EvOrder (PDict d) amt resp;
                 EvRecord (record_of d id price amt resp (clock n1));
                 EvSave; EvNotify id price amt oid; EvSeen id] |})
      | None =>
          (None,
           {| st := set_history h (st w);
              seen_ads := seen_ads w;
              tick := n2;
              trace := trace w ++
                [EvOrder (PDict d) amt resp;
                 EvRecord (record_of d id price amt resp (clock n1));
                 EvSave] |})
      end.
Proof.
  intros Ha.
  destruct (create_buy_order_total d amt w) as (resp & n1 & Hn1 & Ec).
  set (r := record_of d id price amt resp (clock n1)).
  set (w2 := {| st := set_history (r :: history (st w)) (st w);
                seen_ads := seen_ads w; tick := S n1;
                trace := (trace w ++ [EvOrder (PDict d) amt resp]) ++ [EvRecord r] |}).
  assert (Ha2 : existsb is_aware (history (st w2)) = false) by exact Ha.
  destruct (prune_history_returns clock w2 Ha2) as (n2 & h & Hn2 & Hs & Ep).
  exists resp, n1, n2, h. split; [exact Ec|]. split; [exact Hs|].
  split.
  { intros Hc.
    destruct (prune_history_keeps_head clock w2 r (history (st w)) (clock n1)
                eq_refl eq_refl Hc Ha) as (n2' & h' & _ & _ & Ep').
    rewrite Ep in Ep'. exists h'.
    exact (f_equal (fun x => history (st (snd x))) Ep'). }
  unfold place_and_record.
  rewrite (bind_some _ _ _ _ _ Ec).
  unfold bind at 1. unfold emit at 1, modify at 1. cbv beta iota.
  unfold bind at 1. unfold utcnow at 1. cbv beta iota.
  unfold bind at 1. unfold modify at 1. cbv beta iota.
  unfold bind at 1. unfold emit at 1, modify at 1. cbv beta iota.
  simpl tick. simpl trace. simpl st. fold r.
  change (with_trace _ _) with w2.
  rewrite (bind_some _ _ _ _ _ Ep).
  unfold bind at 1. unfold emit at 1, modify at 1. cbv beta iota.
  unfold bind at 1. unfold lift.
  destruct (order_id_of resp) as [oid|]; simpl.
  - unfold bind, emit, modify, gets; simpl. unfold seen_after.
    rewrite <- !app_assoc. simpl.
    destruct (1000 <? List.length (set_add id (seen_ads w)))%nat; reflexivity.
  - rewrite <- !app_assoc. reflexivity.
Qed.

(** An order whose answer yields an order identifier (or is not a
    dictionary) is recorded, saved, notified and marked seen; its record
    heads the history unless the clock ran ten days ahead in between. *)
Lemma attempt_is_recorded_and_marked d id price amt w :
  existsb is_aware (history (st w)) = false ->
  exists resp n1,
    create d amt w = (Some resp, with_tick n1 w) /\
    forall oid, order_id_of resp = Some oid ->
      place d id price amt w
      = (Some tt, exec (place d id price amt) w) /\
      seen_ads (exec (place d id price amt) w) = seen_after id (seen_ads w) /\
      trace (exec (place d id price amt) w)
      = trace w ++
        [EvOrder (PDict d) amt resp;
         EvRecord (record_of d id price amt resp (clock n1));
         EvSave; EvNotify id price amt oid; EvSeen id] /\
      (clock (S n1) - ten_days <= clock n1 ->
       exists h',
         history (st (exec (place d id price amt) w))
         = record_of d id price amt resp (clock n1) :: h').
Proof.
  intros Ha.
  destruct (place_and_record_spec d id price amt w Ha)
    as (resp & n1 & n2 & h & Ec & _ & Hh & Ep).
  exists resp, n1. split; [exact Ec|]. intros oid Ho. unfold exec.
  rewrite Ep, Ho. simpl. repeat split. exact Hh.
Qed.

(** The three outcomes of the loop body: nothing happens; the listing is
    found infeasible and only that is logged; or lines 236-278 run, which
    requires a parsed price inside the band. *)
Lemma body_outcomes ad w :
  (body ad w = (Some tt, w) \/ body ad w = (None, w)) \/
  (exists id amt amax,
      body ad w
      = (Some tt, with_trace (trace w ++ [EvInfeasible id amt amax]) w)) \/
  (exists d price amt,
      ad = PDict d /\
      is_none (price_str_of d) = false /\
      to_float float_of_str (price_str_of d) = Some price /\
      in_band (price_range_min (st w)) (price_range_max (st w)) price = true /\
      body ad w = place d (ad_id_of py_str d price) price amt w).
Proof.
  unfold ad_body.
  destruct ad as [| | | | |l|d]; try (left; right; reflexivity).
  cbv beta iota zeta delta
    [bind gets ret raise lift py_float set_mem as_dict].
  destruct (is_none (price_str_of d)) eqn:Hnone; [left; left; reflexivity|].
  destruct (to_float float_of_str (price_str_of d)) as [price|] eqn:Hp;
    [|left; right; reflexivity].
  cbv beta iota.
  destruct (is_seen (ad_id_of py_str d price) (seen_ads w)) as [[|]|];
    [left; left; reflexivity| |left; right; reflexivity].
  cbv beta iota.
  destruct (in_band (price_range_min (st w)) (price_range_max (st w)) price)
    eqn:Hband; [|left; left; reflexivity].
  destruct (to_float float_of_str (min_limit_of d)) as [a_min|];
    [|left; right; reflexivity].
  cbv beta iota.
  destruct (to_float float_of_str (max_limit_of d)) as [a_max|];
    [|left; right; reflexivity].
  cbv beta iota.
  destruct (clamp_up (configured_min_buy (st w)) a_min) as [amt|];
    [|left; right; reflexivity].
  cbv beta iota.
  destruct (int_gt_float amt a_max).
  - right; left. exists (ad_id_of py_str d price), amt, a_max. reflexivity.
  - right; right. exists d, price, amt. repeat split; auto.
Qed.

Lemma exec_try_except m w : exec (try_except m) w = exec m w.
Proof. reflexivity. Qed.

(** One listing, from a world whose history holds no offset-aware
    timestamp: the configuration and that property of the history are kept,
    and the trace grows by one block. *)
Lemma process_step ad w :
  existsb is_aware (history (st w)) = false ->
  existsb is_aware (history (st (exec (process ad) w))) = false /\
  config_of (st (exec (process ad) w)) = config_of (st w) /\
  exists b,
    trace (exec (process ad) w) = trace w ++ b /\
    step_block (price_range_min (st w)) (price_range_max (st w)) b.
Proof.
  intros Ha. unfold process_ad. rewrite exec_try_except. unfold exec.
  destruct (body_outcomes ad w)
    as [[E|E] | [(id & amt & amax & E) | (d & price & amt & _ & Hn & Hp & Hb & E)]];
    rewrite E; simpl.
  - split; [exact Ha|]. split; [reflexivity|]. exists []. rewrite app_nil_r.
    split; [reflexivity | constructor].
  - split; [exact Ha|]. split; [reflexivity|]. exists []. rewrite app_nil_r.
    split; [reflexivity | constructor].
  - split; [exact Ha|]. split; [reflexivity|]. eexists.
    split; [reflexivity | constructor].
  - destruct (place_and_record_spec d (ad_id_of py_str d price) price amt w Ha)
      as (resp & n1 & n2 & h & Ec & Hs & _ & Ep).
    rewrite Ep.
    assert (Hh : existsb is_aware h = false).
    { apply (subseq_no_aware _ _ Hs). simpl. exact Ha. }
    split; [destruct (order_id_of resp); exact Hh|].
    split; [destruct (order_id_of resp); reflexivity|].
    eexists. split; [|exact (block_placed float_of_str py_str client _ _ d price
                               amt resp (clock n1) _ _ Hn Hp Hb Ec)].
    destruct (order_id_of resp); reflexivity.
Qed.

Lemma process_returns ad w : process ad w = (Some tt, exec (process ad) w).
Proof. reflexivity. Qed.

Lemma config_band s s' :
  config_of s = config_of s' ->
  price_range_min s = price_range_min s' /\
  price_range_max s = price_range_max s'.
Proof.
  intros H. split.
  - exact (f_equal price_range_min H).
  - exact (f_equal price_range_max H).
Qed.

(** ** The loop over the listings and the cycle *)

Lemma loop_blocks ads : forall w,
  existsb is_aware (history (st w)) = false ->
  existsb is_aware (history (st (exec (loop ads) w))) = false /\
  config_of (st (exec (loop ads) w)) = config_of (st w) /\
  exists bs,
    trace (exec (loop ads) w) = trace w ++ List.concat bs /\
    Forall (step_block (price_range_min (st w)) (price_range_max (st w))) bs.
Proof.
  induction ads as [|ad rest IH]; intros w Ha.
  - split; [exact Ha|]. split; [reflexivity|]. exists [].
    split; [simpl; now rewrite app_nil_r | constructor].
  - assert (E : exec (loop (ad :: rest)) w = exec (loop rest) (exec (process ad) w)).
    { unfold exec at 1. simpl. unfold bind. rewrite process_returns. reflexivity. }
    rewrite E.
    destruct (process_step ad w Ha) as (Ha1 & Hc1 & b & Hb & Hblock).
    destruct (IH _ Ha1) as (Ha2 & Hc2 & bs & Hbs & Hblocks).
    split; [exact Ha2|]. split; [congruence|].
    exists (b :: bs). split.
    + rewrite Hbs, Hb. simpl. now rewrite app_assoc.
    + constructor; [exact Hblock|].
      destruct (config_band _ _ Hc1) as [<- <-]. exact Hblocks.
Qed.

Lemma ads_via_total c names params : forall w,
  exists ads n, ads_via c names params w = (Some ads, with_tick n w).
Proof.
  induction names as [|name rest IH]; intros w; simpl.
  - exists [], (tick w). now rewrite with_tick_same.
  - destruct (c name) as [m|]; [|apply IH].
    unfold bind, call; simpl.
    destruct (IH (with_tick (S (tick w)) w)) as (ads & n & E).
    destruct (m params (tick w)) as [v|].
    + destruct v as [| | | | |l|d]; try (exists ads, n; exact E).
      * exists l, (S (tick w)). reflexivity.
      * match goal with |- context [match ?x with PList _ => _ | _ => _ end] =>
          destruct x as [| | | | |l|d'] end; try (exists ads, n; exact E).
        exists l, (S (tick w)). reflexivity.
    + exists ads, n. exact E.
Qed.

(** [get_online_ads] always returns, and changes nothing but the count of
    gateway calls. *)
Lemma get_online_ads_total w :
  exists ads n, get_online_ads client w = (Some ads, with_tick n w).
Proof.
  unfold get_online_ads. destruct client as [c|].
  - cbv beta iota delta [bind gets]. apply ads_via_total.
  - exists [], (tick w). unfold ret. now rewrite with_tick_same.
Qed.

(** The trace of one cycle grows by the blocks of its listings. *)
Lemma cycle_blocks w :
  exists bs,
    trace (exec cycle w) = trace w ++ List.concat bs /\
    Forall (step_block (price_range_min (st w)) (price_range_max (st w))) bs.
Proof.
  assert (Hnil : exists bs,
             trace w = trace w ++ List.concat bs /\
             Forall (step_block (price_range_min (st w))
                                (price_range_max (st w))) bs).
  { exists []. split; [simpl; now rewrite app_nil_r | constructor]. }
  unfold worker_cycle. rewrite exec_try_except. unfold exec.
  unfold bind at 1. unfold gets at 1. cbv beta iota.
  destruct (bot_running (st w)); cbv beta iota delta [negb]; [|exact Hnil].
  destruct (existsb is_aware (history (st w))) eqn:Ha.
  - destruct (prune_history_raises clock w Ha) as (n & _ & E).
    rewrite (bind_none _ _ _ _ E). exact Hnil.
  - destruct (prune_history_returns clock w Ha) as (n & h & _ & Hs & E).
    rewrite (bind_some _ _ _ _ _ E).
    set (w1 := with_tick n (with_state (set_history h (st w)) w)).
    destruct (get_online_ads_total w1) as (ads & n' & Eg).
    rewrite (bind_some _ _ _ _ _ Eg).
    assert (Ha2 : existsb is_aware (history (st (with_tick n' w1))) = false).
    { simpl. exact (subseq_no_aware _ _ Hs Ha). }
    destruct (loop_blocks ads (with_tick n' w1) Ha2) as (_ & _ & bs & Hbs & Hblocks).
    exists bs. split; [|exact Hblocks].
    destruct ads as [|ad rest]; exact Hbs.
Qed.

(** ** The filter, the dedup and the feasibility test *)

Ltac run_body :=
  unfold process_ad, try_except, ad_body;
  cbv beta iota zeta delta
    [bind gets ret raise lift py_float set_mem as_dict].

(** No event of a block concerns a listing whose price is outside the
    band. *)
Lemma block_in_band pmin pmax b d price e :
  step_block pmin pmax b ->
  to_float float_of_str (price_str_of d) = Some price ->
  in_band pmin pmax price = false ->
  In e b -> ~ concerns (PDict d) e.
Proof.
  intros Hb Hp Hout Hin Hc.
  destruct Hb as [|id amt amax|d' price' amt resp ts w0 w1 Hn' Hp' Hb' Hc'].
  - contradiction.
  - destruct Hin as [<-|[]]. exact Hc.
  - assert (Hd : d' = d).
    { destruct Hin as [<-|[<-|[<-|Hin]]]; simpl in Hc; try congruence; try contradiction.
      destruct (order_id_of resp); [destruct Hin as [<-|[<-|[]]]; contradiction | contradiction]. }
    subst d'. congruence.
Qed.

(** C1. A listing whose parsed price lies outside the inclusive band
    [[price_range.min, price_range.max]] is passed over: processing it
    leaves the world as it is (no order attempt, no history record, nothing
    added to the seen set), and no order and no record of a whole cycle
    concerns it. *)
Theorem out_of_band_listing_is_ignored w d price :
  is_none (price_str_of d) = false ->
  to_float float_of_str (price_str_of d) = Some price ->
  in_band (price_range_min (st w)) (price_range_max (st w)) price = false ->
  process (PDict d) w = (Some tt, w) /\
  forall e, In e (trace (exec cycle w)) -> concerns (PDict d) e ->
            In e (trace w).
Proof.
  intros Hn Hp Hout. split.
  - run_body. rewrite Hn, Hp. cbv beta iota.
    destruct (is_seen (ad_id_of py_str d price) (seen_ads w)) as [[|]|];
      cbv beta iota; try reflexivity.
    now rewrite Hout.
  - intros e Hin Hc. destruct (cycle_blocks w) as (bs & Ht & Hblocks).
    rewrite Ht in Hin. apply in_app_or in Hin. destruct Hin as [Hin|Hin]; [exact Hin|].
    apply in_concat in Hin. destruct Hin as (b & Hb & Hin).
    rewrite Forall_forall in Hblocks.
    exfalso. exact (block_in_band _ _ b d price e (Hblocks b Hb) Hp Hout Hin Hc).
Qed.

(** C2. A listing whose derived identifier is a member of the seen set when
    the listing is processed is passed over: no order attempt, no history
    record, the world is left as it is; and so it is at every later
    presentation, the seen set being unchanged by it. *)
Theorem seen_listing_is_ignored w d price :
  is_none (price_str_of d) = false ->
  to_float float_of_str (price_str_of d) = Some price ->
  is_seen (ad_id_of py_str d price) (seen_ads w) = Some true ->
  process (PDict d) w = (Some tt, w) /\
  forall n, Nat.iter n (exec (process (PDict d))) w = w.
Proof.
  intros Hn Hp Hs.
  assert (E : process (PDict d) w = (Some tt, w)).
  { run_body. rewrite Hn, Hp. cbv beta iota. now rewrite Hs. }
  split; [exact E|].
  induction n as [|n IH]; simpl; [reflexivity|].
  rewrite IH. unfold exec. now rewrite E.
Qed.

(** C4. An in-band, unseen listing whose clamped amount exceeds its
    [maxLimit] is skipped: processing it only logs that it is infeasible,
    with no order, no history record and nothing added to the seen set; so
    each later presentation evaluates it again, with the same outcome. *)
Theorem infeasible_listing_is_skipped_unseen w d price a_min a_max amt :
  is_none (price_str_of d) = false ->
  to_float float_of_str (price_str_of d) = Some price ->
  is_seen (ad_id_of py_str d price) (seen_ads w) = Some false ->
  in_band (price_range_min (st w)) (price_range_max (st w)) price = true ->
  to_float float_of_str (min_limit_of d) = Some a_min ->
  to_float float_of_str (max_limit_of d) = Some a_max ->
  clamp_up (configured_min_buy (st w)) a_min = Some amt ->
  int_gt_float amt a_max = true ->
  process (PDict d) w
  = (Some tt,
     with_trace (trace w ++ [EvInfeasible (ad_id_of py_str d price) amt a_max])
       w) /\
  forall n,
    Nat.iter n (exec (process (PDict d))) w
    = with_trace
        (trace w ++ repeat (EvInfeasible (ad_id_of py_str d price) amt a_max) n)
        w.
Proof.
  intros Hn Hp Hs Hb Hmin Hmax Hc Hgt.
  assert (E : forall w', st w' = st w -> seen_ads w' = seen_ads w ->
             process (PDict d) w'
             = (Some tt,
                with_trace
                  (trace w' ++ [EvInfeasible (ad_id_of py_str d price) amt a_max])
                  w')).
  { intros w' Hst Hse. run_body.
    rewrite Hn, Hp. cbv beta iota. rewrite Hse, Hs. cbv beta iota.
    rewrite Hst, Hb, Hmin. cbv beta iota. rewrite Hmax. cbv beta iota.
    rewrite Hst, Hc. cbv beta iota. rewrite Hgt. reflexivity. }
  split; [now apply E|].
  induction n as [|n IH]; simpl.
  - rewrite app_nil_r. now destruct w.
  - rewrite IH. unfold exec. rewrite E by reflexivity. simpl.
    unfold with_trace; simpl. f_equal. rewrite <- app_assoc. f_equal.
    symmetry. apply repeat_cons.
Qed.

(** ** Order placement *)

Lemma order_via_unavailable c names params :
  (forall name, In name names ->
     match c name with
     | None => True
     | Some m => forall kwargs n, m kwargs n = Raised
     end) ->
  forall w, fst (order_via c names params w) = Some PNone.
Proof.
  induction names as [|name rest IH]; intros H w; simpl; [reflexivity|].
  assert (Hrest : forall name', In name' rest ->
             match c name' with
             | None => True
             | Some m => forall kwargs n, m kwargs n = Raised
             end) by (intros; apply H; now right).
  specialize (H name (or_introl eq_refl)).
  destruct (c name) as [m|]; [|now apply IH].
  unfold bind, call; simpl. rewrite H. now apply IH.
Qed.

Lemma create_unavailable d amt w :
  unavailable client -> fst (create d amt w) = Some PNone.
Proof.
  unfold unavailable, create_buy_order. destruct client as [c|]; [|reflexivity].
  intros H. match goal with |- context [if ?b then _ else _] => destruct b end;
    [reflexivity|]. now apply order_via_unavailable.
Qed.

(** In a block, an order answered [None] comes with its record, whose
    result is [None], and with its notification. *)
Lemma block_null_order pmin pmax b ad amt :
  step_block pmin pmax b ->
  In (EvOrder ad amt PNone) b ->
  exists r,
    In (EvRecord r) b /\ order_response r = PNone /\ ad_raw r = ad /\
    amount r = amt /\
    In (EvNotify (ad_id r) (ad_price r) amt PNone) b.
Proof.
  intros Hb Hin.
  destruct Hb as [|id a amax|d price a resp ts w0 w1 Hn Hp Hband Hc].
  - contradiction.
  - destruct Hin as [E|[]]. discriminate.
  - assert (E : ad = PDict d /\ amt = a /\ resp = PNone).
    { destruct Hin as [E|[E|[E|Hin]]]; try discriminate.
      - injection E as -> -> ->. auto.
      - destruct (order_id_of resp); [destruct Hin as [E|[E|[]]]; discriminate | contradiction]. }
    destruct E as (-> & -> & ->).
    exists (record_of d (ad_id_of py_str d price) price a PNone ts).
    simpl. repeat split; auto.
Qed.

(** When the capability is unavailable, every order of a block is answered
    [None]. *)
Lemma block_unavailable pmin pmax b ad amt resp :
  unavailable client ->
  step_block pmin pmax b ->
  In (EvOrder ad amt resp) b -> resp = PNone.
Proof.
  intros Hu Hb Hin.
  destruct Hb as [|id a amax|d price a resp' ts w0 w1 Hn Hp Hband Hc].
  - contradiction.
  - destruct Hin as [E|[]]. discriminate.
  - assert (E : resp = resp').
    { destruct Hin as [E|[E|[E|Hin]]]; try discriminate.
      - now injection E.
      - destruct (order_id_of resp'); [destruct Hin as [E|[E|[]]]; discriminate | contradiction]. }
    subst resp'. pose proof (create_unavailable d a w0 Hu) as H.
    rewrite Hc in H. simpl in H. congruence.
Qed.

(** An eligible listing (in band, unseen, feasible) processed while the
    capability is unavailable: the order is answered [None], and the world
    afterwards holds the record of the attempt, the notification and the
    mark. *)
Lemma process_unavailable w d price a_min a_max amt :
  unavailable client ->
  is_none (price_str_of d) = false ->
  to_float float_of_str (price_str_of d) = Some price ->
  is_seen (ad_id_of py_str d price) (seen_ads w) = Some false ->
  in_band (price_range_min (st w)) (price_range_max (st w)) price = true ->
  to_float float_of_str (min_limit_of d) = Some a_min ->
  to_float float_of_str (max_limit_of d) = Some a_max ->
  clamp_up (configured_min_buy (st w)) a_min = Some amt ->
  int_gt_float amt a_max = false ->
  existsb is_aware (history (st w)) = false ->
  exists n1 n2 h,
    create d amt w = (Some PNone, with_tick n1 w) /\
    subseq h (record_of d (ad_id_of py_str d price) price amt PNone (clock n1)
              :: history (st w)) /\
    (clock (S n1) - ten_days <= clock n1 ->
     exists h',
       h = record_of d (ad_id_of py_str d price) price amt PNone (clock n1)
           :: h') /\
    process (PDict d) w
    = (Some tt,
       {| st := set_history h (st w);
          seen_ads := seen_after (ad_id_of py_str d price) (seen_ads w);
          tick := n2;
          trace := trace w ++
            [EvOrder (PDict d) amt PNone;
             EvRecord (record_of d (ad_id_of py_str d price) price amt PNone
                         (clock n1));
             EvSave;
             EvNotify (ad_id_of py_str d price) price amt PNone;
             EvSeen (ad_id_of py_str d price)] |}).
Proof.
  intros Hu Hn Hp Hs Hb Hmin Hmax Hc Hgt Ha.
  destruct (place_and_record_spec d (ad_id_of py_str d price) price amt w Ha)
    as (resp & n1 & n2 & h & Ec & Hsub & Hhead & Ep).
  pose proof (create_unavailable d amt w Hu) as Hnone.
  rewrite Ec in Hnone. simpl in Hnone. injection Hnone as ->.
  exists n1, n2, h. split; [exact Ec|]. split; [exact Hsub|].
  split; [exact Hhead|].
  run_body. rewrite Hn, Hp. cbv beta iota. rewrite Hs. cbv beta iota.
  rewrite Hb, Hmin. cbv beta iota. rewrite Hmax. cbv beta iota.
  rewrite Hc. cbv beta iota. rewrite Hgt. rewrite Ep. reflexivity.
Qed.

(** The same at the head of a cycle: the engine runs, the client lists the
    listing first and cannot place orders. *)
Lemma cycle_first_unavailable w d rest price a_min a_max amt :
  unavailable client ->
  bot_running (st w) = true ->
  existsb is_aware (history (st w)) = false ->
  fst (get_online_ads client (exec (prune_history clock) w))
  = Some (PDict d :: rest) ->
  is_none (price_str_of d) = false ->
  to_float float_of_str (price_str_of d) = Some price ->
  is_seen (ad_id_of py_str d price) (seen_ads w) = Some false ->
  in_band (price_range_min (st w)) (price_range_max (st w)) price = true ->
  to_float float_of_str (min_limit_of d) = Some a_min ->
  to_float float_of_str (max_limit_of d) = Some a_max ->
  clamp_up (configured_min_buy (st w)) a_min = Some amt ->
  int_gt_float amt a_max = false ->
  exists n1 w3 more,
    exec cycle w = exec (loop rest) w3 /\
    (clock (S n1) - ten_days <= clock n1 ->
     exists h',
       history (st w3)
       = record_of d (ad_id_of py_str d price) price amt PNone (clock n1)
         :: h') /\
    seen_ads w3 = seen_after (ad_id_of py_str d price) (seen_ads w) /\
    trace w3
    = trace w ++
      [EvOrder (PDict d) amt PNone;
       EvRecord (record_of d (ad_id_of py_str d price) price amt PNone
                   (clock n1));
       EvSave;
       EvNotify (ad_id_of py_str d price) price amt PNone;
       EvSeen (ad_id_of py_str d price)] /\
    trace (exec cycle w) = trace w3 ++ more.
Proof.
  intros Hu Hrun Ha Hfetch Hn Hp Hs Hb Hmin Hmax Hc Hgt.
  destruct (prune_history_returns clock w Ha) as (n & h0 & _ & Hs0 & E).
  unfold exec in Hfetch. rewrite E in Hfetch. simpl snd in Hfetch.
  set (w1 := with_tick n (with_state (set_history h0 (st w)) w)) in *.
  destruct (get_online_ads_total w1) as (ads & n' & Eg).
  rewrite Eg in Hfetch. simpl in Hfetch. injection Hfetch as ->.
  set (w2 := with_tick n' w1) in *.
  assert (Ha2 : existsb is_aware (history (st w2)) = false).
  { simpl. exact (subseq_no_aware _ _ Hs0 Ha). }
  destruct (process_unavailable w2 d price a_min a_max amt Hu Hn Hp Hs Hb Hmin
              Hmax Hc Hgt Ha2)
    as (n1 & n2 & h & _ & Hsub & Hhead & Ep).
  set (r := record_of d (ad_id_of py_str d price) price amt PNone (clock n1)) in *.
  set (w3 := {| st := set_history h (st w2);
                seen_ads := seen_after (ad_id_of py_str d price) (seen_ads w2);
                tick := n2;
                trace := trace w2 ++
                  [EvOrder (PDict d) amt PNone; EvRecord r; EvSave;
                   EvNotify (ad_id_of py_str d price) price amt PNone;
                   EvSeen (ad_id_of py_str d price)] |}) in *.
  assert (Ecycle : exec cycle w = exec (loop rest) w3).
  { unfold worker_cycle. rewrite exec_try_except. unfold exec.
    unfold bind at 1. unfold gets at 1. cbv beta iota. rewrite Hrun.
    cbv beta iota delta [negb].
    rewrite (bind_some _ _ _ _ _ E). rewrite (bind_some _ _ _ _ _ Eg).
    cbv beta iota. simpl for_ads. unfold bind at 1. now rewrite Ep. }
  assert (Ha3 : existsb is_aware (history (st w3)) = false).
  { simpl. apply (subseq_no_aware _ _ Hsub). simpl. exact Ha2. }
  destruct (loop_blocks rest w3 Ha3) as (_ & _ & bs & Hbs & _).
  exists n1, w3, (List.concat bs).
  split; [exact Ecycle|]. split.
  { intros Hclock. destruct (Hhead Hclock) as (h' & ->). now exists h'. }
  split; [reflexivity|]. split; [reflexivity|].
  rewrite Ecycle. exact Hbs.
Qed.

(** C6. When the order-placement capability is unavailable (no client
    configured, or no candidate method succeeds), [create_buy_order] returns
    [None], and the attempt is nevertheless recorded and notified: an
    eligible listing (price in band, identifier unseen, amount feasible) is
    processed into an order answered [None], a history record whose order
    result is [None], inserted at the head of the history, the save, the
    notification to the operator and the mark; a cycle whose client lists
    such a listing first does so at its head; and in every cycle each order
    answered [None] has its record and its notification, which under an
    unavailable capability is every order of the cycle. *)
Theorem unavailable_gateway_is_recorded_and_notified :
  (unavailable client ->
   forall d amt w, fst (create d amt w) = Some PNone) /\
  (unavailable client ->
   forall w d price a_min a_max amt,
     is_none (price_str_of d) = false ->
     to_float float_of_str (price_str_of d) = Some price ->
     is_seen (ad_id_of py_str d price) (seen_ads w) = Some false ->
     in_band (price_range_min (st w)) (price_range_max (st w)) price = true ->
     to_float float_of_str (min_limit_of d) = Some a_min ->
     to_float float_of_str (max_limit_of d) = Some a_max ->
     clamp_up (configured_min_buy (st w)) a_min = Some amt ->
     int_gt_float amt a_max = false ->
     existsb is_aware (history (st w)) = false ->
     exists n1 n2 h,
       create d amt w = (Some PNone, with_tick n1 w) /\
       subseq h (record_of d (ad_id_of py_str d price) price amt PNone
                   (clock n1) :: history (st w)) /\
       (clock (S n1) - ten_days <= clock n1 ->
        exists h',
          h = record_of d (ad_id_of py_str d price) price amt PNone (clock n1)
              :: h') /\
       process (PDict d) w
       = (Some tt,
          {| st := set_history h (st w);
             seen_ads := seen_after (ad_id_of py_str d price) (seen_ads w);
             tick := n2;
             trace := trace w ++
               [EvOrder (PDict d) amt PNone;
                EvRecord (record_of d (ad_id_of py_str d price) price amt
                            PNone (clock n1));
                EvSave;
                EvNotify (ad_id_of py_str d price) price amt PNone;
                EvSeen (ad_id_of py_str d price)] |})) /\
  (unavailable client ->
   forall w d rest price a_min a_max amt,
     bot_running (st w) = true ->
     existsb is_aware (history (st w)) = false ->
     fst (get_online_ads client (exec (prune_history clock) w))
     = Some (PDict d :: rest) ->
     is_none (price_str_of d) = false ->
     to_float float_of_str (price_str_of d) = Some price ->
     is_seen (ad_id_of py_str d price) (seen_ads w) = Some false ->
     in_band (price_range_min (st w)) (price_range_max (st w)) price = true ->
     to_float float_of_str (min_limit_of d) = Some a_min ->
     to_float float_of_str (max_limit_of d) = Some a_max ->
     clamp_up (configured_min_buy (st w)) a_min = Some amt ->
     int_gt_float amt a_max = false ->
     exists n1 w3 more,
       exec cycle w = exec (loop rest) w3 /\
       (clock (S n1) - ten_days <= clock n1 ->
        exists h',
          history (st w3)
          = record_of d (ad_id_of py_str d price) price amt PNone (clock n1)
            :: h') /\
       seen_ads w3 = seen_after (ad_id_of py_str d price) (seen_ads w) /\
       trace w3
       = trace w ++
         [EvOrder (PDict d) amt PNone;
          EvRecord (record_of d (ad_id_of py_str d price) price amt PNone
                      (clock n1));
          EvSave;
          EvNotify (ad_id_of py_str d price) price amt PNone;
          EvSeen (ad_id_of py_str d price)] /\
       trace (exec cycle w) = trace w3 ++ more) /\
  forall w, exists new,
    trace (exec cycle w) = trace w ++ new /\
    (forall ad amt,
        In (EvOrder ad amt PNone) new ->
        exists r,
          In (EvRecord r) new /\ order_response r = PNone /\ ad_raw r = ad /\
          amount r = amt /\
          In (EvNotify (ad_id r) (ad_price r) amt PNone) new) /\
    (unavailable client ->
     forall ad amt resp, In (EvOrder ad amt resp) new -> resp = PNone).
Proof.
  split; [|split; [|split]].
  - intros Hu d amt w. now apply create_unavailable.
  - intros Hu w d price a_min a_max amt. now apply process_unavailable.
  - intros Hu w d rest price a_min a_max amt.
    now apply cycle_first_unavailable.
  - intros w. destruct (cycle_blocks w) as (bs & Ht & Hblocks).
    rewrite Forall_forall in Hblocks.
    exists (List.concat bs). split; [exact Ht|]. split.
    + intros ad amt Hin. apply in_concat in Hin. destruct Hin as (b & Hb & Hin).
      destruct (block_null_order _ _ b ad amt (Hblocks b Hb) Hin)
        as (r & Hr & H1 & H2 & H3 & Hnot).
      exists r. repeat split; auto; apply in_concat; exists b; auto.
    + intros Hu ad amt resp Hin. apply in_concat in Hin.
      destruct Hin as (b & Hb & Hin).
      exact (block_unavailable _ _ b ad amt resp Hu (Hblocks b Hb) Hin).
Qed.

End Steps.

(** ** The configured [max_buy] is never consulted *)

Section MaxBuy.

Variable clock : nat -> Z.
Variable float_of_str : string -> option float.
Variable py_str : pyval -> string.
Variable pick : list pyval -> nat.
Variable client : option (string -> option method).

Lemma ignores_ret {A : Type} (a : A) : ignores_max_buy (ret a).
Proof. intros n w. reflexivity. Qed.

Lemma ignores_raise {A : Type} : ignores_max_buy (@raise A).
Proof. intros n w. reflexivity. Qed.

Lemma ignores_lift {A : Type} (o : option A) : ignores_max_buy (lift o).
Proof. destruct o; [apply ignores_ret | apply ignores_raise]. Qed.

Lemma ignores_bind {A B : Type} (m : M A) (k : A -> M B) :
  ignores_max_buy m -> (forall a, ignores_max_buy (k a)) ->
  ignores_max_buy (bind m k).
Proof.
  intros Hm Hk n w. unfold bind. rewrite Hm.
  destruct (m w) as [[a|] w']; simpl; [apply Hk | reflexivity].
Qed.

Lemma ignores_gets {A : Type} (f : world -> A) :
  (forall n w, f (with_max_buy n w) = f w) -> ignores_max_buy (gets f).
Proof. intros H n w. unfold gets. now rewrite H. Qed.

Lemma ignores_modify (f : world -> world) :
  (forall n w, f (with_max_buy n w) = with_max_buy n (f w)) ->
  ignores_max_buy (modify f).
Proof. intros H n w. unfold modify. now rewrite H. Qed.

Lemma ignores_emit e : ignores_max_buy (emit e).
Proof. apply ignores_modify. reflexivity. Qed.

Lemma ignores_try_except m :
  ignores_max_buy m -> ignores_max_buy (try_except m).
Proof. intros H n w. unfold try_except. now rewrite H. Qed.

Lemma ignores_utcnow : ignores_max_buy (utcnow clock).
Proof. intros n w. reflexivity. Qed.

Lemma ignores_call m kwargs : ignores_max_buy (call m kwargs).
Proof. intros n w. reflexivity. Qed.

Create HintDb ignores discriminated.

#[local] Hint Resolve ignores_ret ignores_raise ignores_lift ignores_emit
  ignores_utcnow ignores_call : ignores.
#[local] Hint Extern 1 (ignores_max_buy (gets _)) =>
  apply ignores_gets; reflexivity : ignores.
#[local] Hint Extern 1 (ignores_max_buy (modify _)) =>
  apply ignores_modify; reflexivity : ignores.

Ltac ignores :=
  repeat first
    [ solve [auto 1 with ignores nocore]
    | apply ignores_try_except
    | apply ignores_bind; [|intros]
    | match goal with
      | |- ignores_max_buy (if ?b then _ else _) => destruct b
      | |- ignores_max_buy (match ?x with _ => _ end) => destruct x
      end ].

Lemma ignores_prune_loop cutoff items : forall acc,
  ignores_max_buy (prune_loop clock cutoff items acc).
Proof.
  induction items as [|item rest IH]; intros acc; simpl; ignores.
  unfold datetime_ge. ignores.
Qed.

#[local] Hint Resolve ignores_prune_loop : ignores.

Lemma ignores_prune_history : ignores_max_buy (prune_history clock).
Proof. unfold prune_history. ignores. Qed.

#[local] Hint Resolve ignores_prune_history : ignores.

Lemma ignores_ads_via c names params :
  ignores_max_buy (ads_via c names params).
Proof. induction names as [|name rest IH]; simpl; ignores. Qed.

#[local] Hint Resolve ignores_ads_via : ignores.

Lemma ignores_get_online_ads : ignores_max_buy (get_online_ads client).
Proof. unfold get_online_ads. ignores. Qed.

#[local] Hint Resolve ignores_get_online_ads : ignores.

Lemma ignores_order_via c names params :
  ignores_max_buy (order_via c names params).
Proof. induction names as [|name rest IH]; simpl; ignores. Qed.

#[local] Hint Resolve ignores_order_via : ignores.

Lemma ignores_create d amt :
  ignores_max_buy (create_buy_order py_str client d amt).
Proof. unfold create_buy_order. ignores. Qed.

#[local] Hint Resolve ignores_create : ignores.

Lemma ignores_place d id price amt :
  ignores_max_buy (place_and_record clock py_str pick client d id price amt).
Proof. unfold place_and_record. ignores. Qed.

#[local] Hint Resolve ignores_place : ignores.

Lemma ignores_process ad :
  ignores_max_buy (process_ad clock float_of_str py_str pick client ad).
Proof. unfold process_ad, ad_body, as_dict, py_float, set_mem. ignores. Qed.

#[local] Hint Resolve ignores_process : ignores.

Lemma ignores_loop ads :
  ignores_max_buy (for_ads clock float_of_str py_str pick client ads).
Proof. induction ads as [|ad rest IH]; simpl; ignores. Qed.

#[local] Hint Resolve ignores_loop : ignores.

Lemma ignores_cycle :
  ignores_max_buy (worker_cycle clock float_of_str py_str pick client).
Proof. unfold worker_cycle. ignores. Qed.

Local Abbreviation place := (place_and_record clock py_str pick client).
Local Abbreviation process := (process_ad clock float_of_str py_str pick client).
Local Abbreviation cycle := (worker_cycle clock float_of_str py_str pick client).

(** An in-band, unseen listing whose clamped amount does not exceed its
    [maxLimit] reaches lines 236-278 with that amount. *)
Lemma process_places w d price a_min a_max amt :
  is_none (price_str_of d) = false ->
  to_float float_of_str (price_str_of d) = Some price ->
  is_seen (ad_id_of py_str d price) (seen_ads w) = Some false ->
  in_band (price_range_min (st w)) (price_range_max (st w)) price = true ->
  to_float float_of_str (min_limit_of d) = Some a_min ->
  to_float float_of_str (max_limit_of d) = Some a_max ->
  clamp_up (configured_min_buy (st w)) a_min = Some amt ->
  int_gt_float amt a_max = false ->
  exec (process (PDict d)) w
  = exec (place d (ad_id_of py_str d price) price amt) w.
Proof.
  intros Hn Hp Hs Hb Hmin Hmax Hc Hgt. unfold exec.
  unfold process_ad, try_except, ad_body.
  cbv beta iota zeta delta
    [bind gets ret raise lift py_float set_mem as_dict].
  rewrite Hn, Hp. cbv beta iota. rewrite Hs. cbv beta iota.
  rewrite Hb, Hmin. cbv beta iota. rewrite Hmax. cbv beta iota.
  rewrite Hc. cbv beta iota. rewrite Hgt. reflexivity.
Qed.

(** Lines 236-278 always begin by placing the order. *)
Lemma place_emits_order d id price amt w :
  exists resp rest,
    trace (exec (place d id price amt) w)
    = trace w ++ EvOrder (PDict d) amt resp :: rest.
Proof.
  destruct (existsb is_aware (history (st w))) eqn:Ha.
  - destruct (create_buy_order_total py_str client d amt w)
      as (resp & n1 & Hn1 & Ec).
    set (r := record_of d id price amt resp (clock n1)).
    set (w2 := {| st := set_history (r :: history (st w)) (st w);
                  seen_ads := seen_ads w; tick := S n1;
                  trace := (trace w ++ [EvOrder (PDict d) amt resp])
                           ++ [EvRecord r] |}).
    assert (Ha2 : existsb is_aware (history (st w2)) = true) by exact Ha.
    destruct (prune_history_raises clock w2 Ha2) as (n2 & _ & Ep).
    exists resp, [EvRecord r]. unfold exec, place_and_record.
    rewrite (bind_some _ _ _ _ _ Ec).
    unfold bind at 1. unfold emit at 1, modify at 1. cbv beta iota.
    unfold bind at 1. unfold utcnow at 1. cbv beta iota.
    unfold bind at 1. unfold modify at 1. cbv beta iota.
    unfold bind at 1. unfold emit at 1, modify at 1. cbv beta iota.
    simpl tick. simpl trace. simpl st. fold r.
    change (with_trace _ _) with w2.
    rewrite (bind_none _ _ _ _ Ep). simpl. now rewrite <- app_assoc.
  - destruct (place_and_record_spec clock py_str pick client d id price amt w Ha)
      as (resp & n1 & n2 & h & _ & _ & _ & Ep).
    unfold exec. rewrite Ep. exists resp.
    destruct (order_id_of resp); eexists; reflexivity.
Qed.

(** When the listing's [minLimit] is an integer above the configured
    amount, the clamp reaches it exactly. *)
Lemma clamp_up_integral n a_min q z :
  float_value a_min = Some q -> (q == inject_Z z)%Q -> n < z ->
  clamp_up n a_min = Some z.
Proof.
  intros Hv Hq Hlt. unfold clamp_up.
  assert (H : int_lt_float n a_min = true).
  { apply (int_lt_float_value n a_min q Hv). rewrite Hq.
    now rewrite <- Zlt_Qlt. }
  rewrite H. exact (int_of_float_integral a_min q z Hv Hq).
Qed.

(** C9, amended. No decision of a cycle depends on the configured
    [max_buy]: a cycle run with another value leaves the same trace (the
    same orders with the same amounts), the same seen set and the same
    history. In particular, with [min_buy <= max_buy], an in-band, unseen
    listing whose [minLimit] is an integer greater than [max_buy] and not
    greater than its [maxLimit] has an order placed with amount [minLimit],
    which exceeds [max_buy]. *)
Theorem max_buy_is_never_consulted :
  (forall n w,
      exec cycle (with_max_buy n w) = with_max_buy n (exec cycle w) /\
      trace (exec cycle (with_max_buy n w)) = trace (exec cycle w) /\
      seen_ads (exec cycle (with_max_buy n w)) = seen_ads (exec cycle w) /\
      history (st (exec cycle (with_max_buy n w)))
      = history (st (exec cycle w))) /\
  (forall w d price a_min a_max q q' z,
      is_none (price_str_of d) = false ->
      to_float float_of_str (price_str_of d) = Some price ->
      is_seen (ad_id_of py_str d price) (seen_ads w) = Some false ->
      in_band (price_range_min (st w)) (price_range_max (st w)) price = true ->
      to_float float_of_str (min_limit_of d) = Some a_min ->
      float_value a_min = Some q ->
      to_float float_of_str (max_limit_of d) = Some a_max ->
      float_value a_max = Some q' ->
      configured_min_buy (st w) <= max_buy (st w) ->
      (q == inject_Z z)%Q ->
      max_buy (st w) < z ->
      (q <= q')%Q ->
      exists resp rest,
        trace (exec (process (PDict d)) w)
        = trace w ++ EvOrder (PDict d) z resp :: rest).
Proof.
  split.
  - intros n w. unfold exec. rewrite (ignores_cycle n w). simpl.
    repeat split; reflexivity.
  - intros w d price a_min a_max q q' z Hn Hp Hs Hb Hmin Hq Hmax Hq' Hcfg Hz Hlt Hle.
    assert (Hc : clamp_up (configured_min_buy (st w)) a_min = Some z).
    { apply (clamp_up_integral _ a_min q z Hq Hz). lia. }
    assert (Hgt : int_gt_float z a_max = false).
    { destruct (int_gt_float z a_max) eqn:E; [|reflexivity].
      apply (int_gt_float_value z a_max q' Hq') in E.
      rewrite <- Hz in E. exfalso.
      exact (Qlt_irrefl q (Qle_lt_trans _ _ _ Hle E)). }
    rewrite (process_places w d price a_min a_max z Hn Hp Hs Hb Hmin Hmax Hc Hgt).
    apply place_emits_order.
Qed.

(** C10, amended. The upward clamp truncates: with a configured [min_buy]
    that is not negative, for an in-band, unseen listing whose [minLimit]
    is not an integer and exceeds [min_buy], the chosen amount is the floor
    of [minLimit], strictly below [minLimit]; and when that amount does not
    exceed the listing's [maxLimit], the order is placed with it. *)
Theorem clamp_truncates_to_floor w d price a_min a_max q :
  is_none (price_str_of d) = false ->
  to_float float_of_str (price_str_of d) = Some price ->
  is_seen (ad_id_of py_str d price) (seen_ads w) = Some false ->
  in_band (price_range_min (st w)) (price_range_max (st w)) price = true ->
  to_float float_of_str (min_limit_of d) = Some a_min ->
  float_value a_min = Some q ->
  ~ (q == inject_Z (Qfloor q))%Q ->
  0 <= configured_min_buy (st w) ->
  (inject_Z (configured_min_buy (st w)) < q)%Q ->
  clamp_up (configured_min_buy (st w)) a_min = Some (Qfloor q) /\
  (inject_Z (Qfloor q) < q)%Q /\
  (to_float float_of_str (max_limit_of d) = Some a_max ->
   int_gt_float (Qfloor q) a_max = false ->
   exists resp rest,
     trace (exec (process (PDict d)) w)
     = trace w ++ EvOrder (PDict d) (Qfloor q) resp :: rest).
Proof.
  intros Hn Hp Hs Hb Hmin Hq Hni Hcfg Hlt.
  assert (Hc : clamp_up (configured_min_buy (st w)) a_min = Some (Qfloor q)).
  { unfold clamp_up.
    rewrite (proj2 (int_lt_float_value _ a_min q Hq) Hlt).
    apply (int_of_float_floor a_min q Hq).
    apply Qlt_le_weak. apply Qle_lt_trans with (y := inject_Z (configured_min_buy (st w))); [|exact Hlt].
    change 0%Q with (inject_Z 0). now rewrite <- Zle_Qle. }
  split; [exact Hc|]. split; [now apply floor_below_nonintegral|].
  intros Hmax Hgt.
  rewrite (process_places w d price a_min a_max _ Hn Hp Hs Hb Hmin Hmax Hc Hgt).
  apply place_emits_order.
Qed.

End MaxBuy.

(** * The properties on sample inputs *)

Section Scenarios.

Import Sample.

(** The first scenario of the specification: the listing ["A1"] priced 1420,
    with limits 5000 and 2000000, against the band [1400, 1455] and
    [min_buy] 10000. The order is attempted with amount 10000, the history
    gains one record, and the seen set holds ["A1"]. *)
Example scenario_first_presentation :
  exec (process (answering accepted) (PDict A1)) w0
  = {| st := set_history
               [record_of A1 (PStr "A1") (fl 1420) 10000 accepted (clk 1)] st0;
       seen_ads := [PStr "A1"];
       tick := 3;
       trace :=
         [EvOrder (PDict A1) 10000 accepted;
          EvRecord (record_of A1 (PStr "A1") (fl 1420) 10000 accepted (clk 1));
          EvSave;
          EvNotify (PStr "A1") (fl 1420) 10000 (PStr "O1");
          EvSeen (PStr "A1")] |}.
Proof. reflexivity. Qed.

(** The second scenario: the same listing fetched again in the next cycle.
    No second order, no second record. *)
Example scenario_second_presentation :
  let m := market [PDict A1] (Returned accepted) in
  trace (exec (cycle m) w0)
  = [EvOrder (PDict A1) 10000 accepted;
     EvRecord (record_of A1 (PStr "A1") (fl 1420) 10000 accepted (clk 3));
     EvSave;
     EvNotify (PStr "A1") (fl 1420) 10000 (PStr "O1");
     EvSeen (PStr "A1")] /\
  trace (exec (cycle m) (exec (cycle m) w0)) = trace (exec (cycle m) w0) /\
  history (st (exec (cycle m) (exec (cycle m) w0)))
  = [record_of A1 (PStr "A1") (fl 1420) 10000 accepted (clk 3)].
Proof. repeat split; reflexivity. Qed.

(** C1 on the specification's scenario: a listing priced 1500 against the
    band [1400, 1455]. *)
Lemma out_of_band_listing_is_ignored_witness :
  in_band (price_range_min st0) (price_range_max st0) (fl 1500) = false /\
  process (answering accepted) (PDict A2) w0 = (Some tt, w0) /\
  forall e,
    In e (trace (exec (cycle (market [PDict A2] (Returned accepted))) w0)) ->
    concerns (PDict A2) e -> In e (trace w0).
Proof.
  split; [reflexivity|]. split.
  - apply (out_of_band_listing_is_ignored clk no_parse no_str first_member
             (answering accepted) w0 A2 (fl 1500)); reflexivity.
  - apply (out_of_band_listing_is_ignored clk no_parse no_str first_member
             (market [PDict A2] (Returned accepted)) w0 A2 (fl 1500));
      reflexivity.
Defined.

(** C2 on the specification's scenario: the listing ["A1"] presented again
    after it was acted upon. *)
Lemma seen_listing_is_ignored_witness :
  let w1 := exec (process (answering accepted) (PDict A1)) w0 in
  is_seen (PStr "A1") (seen_ads w1) = Some true /\
  process (answering accepted) (PDict A1) w1 = (Some tt, w1) /\
  forall n, Nat.iter n (exec (process (answering accepted) (PDict A1))) w1 = w1.
Proof.
  split; [reflexivity|].
  exact (seen_listing_is_ignored clk no_parse no_str first_member
           (answering accepted)
           (exec (process (answering accepted) (PDict A1)) w0) A1 (fl 1420)
           eq_refl eq_refl eq_refl).
Defined.

(** C4 on a listing whose [maxLimit] 5000 is below the configured 10000. *)
Lemma infeasible_listing_is_skipped_unseen_witness :
  int_gt_float 10000 (fl 5000) = true /\
  process (answering accepted) (PDict A5) w0
  = (Some tt,
     with_trace (trace w0 ++ [EvInfeasible (PStr "A5") 10000 (fl 5000)]) w0) /\
  forall n,
    Nat.iter n (exec (process (answering accepted) (PDict A5))) w0
    = with_trace (trace w0 ++ repeat (EvInfeasible (PStr "A5") 10000 (fl 5000)) n)
        w0.
Proof.
  split; [reflexivity|].
  exact (infeasible_listing_is_skipped_unseen clk no_parse no_str first_member
           (answering accepted) w0 A5 (fl 1420) (fl 1000) (fl 5000) 10000
           eq_refl eq_refl eq_refl eq_refl eq_refl eq_refl eq_refl eq_refl).
Defined.

(** C6 on the listing ["A1"]: the loop body with no client at all, and the
    cycle with a client that lists ["A1"] and whose only order method
    raises. In both the order is answered [None], the record heads the
    history, and the notification and the mark follow. *)
Lemma unavailable_gateway_witness :
  unavailable None /\
  unavailable (market [PDict A1] Raised) /\
  (exists n1 n2 h',
     create_buy_order no_str None A1 10000 w0 = (Some PNone, with_tick n1 w0) /\
     process None (PDict A1) w0
     = (Some tt,
        {| st := set_history
                   (record_of A1 (PStr "A1") (fl 1420) 10000 PNone (clk n1)
                    :: h') st0;
           seen_ads := seen_after first_member (PStr "A1") [];
           tick := n2;
           trace :=
             [EvOrder (PDict A1) 10000 PNone;
              EvRecord (record_of A1 (PStr "A1") (fl 1420) 10000 PNone (clk n1));
              EvSave;
              EvNotify (PStr "A1") (fl 1420) 10000 PNone;
              EvSeen (PStr "A1")] |})) /\
  (exists n1 w3 h' more,
     exec (cycle (market [PDict A1] Raised)) w0
     = exec (for_ads clk no_parse no_str first_member
               (market [PDict A1] Raised) []) w3 /\
     history (st w3)
     = record_of A1 (PStr "A1") (fl 1420) 10000 PNone (clk n1) :: h' /\
     trace w3
     = [EvOrder (PDict A1) 10000 PNone;
        EvRecord (record_of A1 (PStr "A1") (fl 1420) 10000 PNone (clk n1));
        EvSave;
        EvNotify (PStr "A1") (fl 1420) 10000 PNone;
        EvSeen (PStr "A1")] /\
     trace (exec (cycle (market [PDict A1] Raised)) w0) = trace w3 ++ more) /\
  trace (exec (cycle (market [PDict A1] Raised)) w0)
  = [EvOrder (PDict A1) 10000 PNone;
     EvRecord (record_of A1 (PStr "A1") (fl 1420) 10000 PNone (clk 3));
     EvSave;
     EvNotify (PStr "A1") (fl 1420) 10000 PNone;
     EvSeen (PStr "A1")] /\
  history (st (exec (cycle (market [PDict A1] Raised)) w0))
  = [record_of A1 (PStr "A1") (fl 1420) 10000 PNone (clk 3)].
Proof.
  assert (Hu : unavailable (market [PDict A1] Raised)).
  { intros name Hin. simpl in Hin.
    destruct Hin as [<-|[<-|[<-|[<-|[<-|[<-|[]]]]]]]; simpl; auto. }
  assert (Hclk : forall n, clk (S n) - ten_days <= clk n).
  { intros n. unfold clk, ten_days. lia. }
  split; [exact I|]. split; [exact Hu|].
  split; [|split; [|split; reflexivity]].
  - destruct (proj1 (proj2 (unavailable_gateway_is_recorded_and_notified
                              clk no_parse no_str first_member None))
                I w0 A1 (fl 1420) (fl 5000) (fl 2000000) 10000
                eq_refl eq_refl eq_refl eq_refl eq_refl eq_refl eq_refl eq_refl
                eq_refl)
      as (n1 & n2 & h & Ec & _ & Hhead & Ep).
    destruct (Hhead (Hclk n1)) as (h' & ->).
    exists n1, n2, h'. split; [exact Ec | exact Ep].
  - destruct (proj1 (proj2 (proj2 (unavailable_gateway_is_recorded_and_notified
                                     clk no_parse no_str first_member
                                     (market [PDict A1] Raised))))
                Hu w0 A1 [] (fl 1420) (fl 5000) (fl 2000000) 10000
                eq_refl eq_refl eq_refl
                eq_refl eq_refl eq_refl eq_refl eq_refl eq_refl eq_refl eq_refl)
      as (n1 & w3 & more & Ecycle & Hhead & _ & Ht & Hmore).
    destruct (Hhead (Hclk n1)) as (h' & Hh).
    exists n1, w3, h', more. repeat split; assumption.
Defined.

(** C9, amended, on a listing whose [minLimit] 12000 exceeds a configured
    [max_buy] of 11000: the order is placed with amount 12000. *)
Lemma max_buy_is_never_consulted_witness :
  max_buy (st (with_amounts 10000 11000)) = 11000 /\
  exists resp rest,
    trace (exec (process (answering accepted) (PDict A3))
             (with_amounts 10000 11000))
    = trace (with_amounts 10000 11000) ++ EvOrder (PDict A3) 12000 resp :: rest.
Proof.
  split; [reflexivity|].
  eapply (proj2 (max_buy_is_never_consulted clk no_parse no_str first_member
                   (answering accepted))
            (with_amounts 10000 11000) A3 (fl 1420) (fl 12000) (fl 50000)).
  - reflexivity.
  - reflexivity.
  - reflexivity.
  - reflexivity.
  - reflexivity.
  - reflexivity.
  - reflexivity.
  - reflexivity.
  - vm_compute. discriminate.
  - vm_compute. reflexivity.
  - reflexivity.
  - vm_compute. discriminate.
Defined.

(** C9 as stated fails twice.

    With [min_buy] 10000 and [max_buy] 12000, the listing ["A4"] is in band
    and unseen, its [minLimit] 12000.5 is greater than [max_buy] and not
    greater than its [maxLimit] 50000; the order is placed with amount
    12000, which does not exceed [max_buy].

    With [min_buy] 100000 above [max_buy] 5000, the listing ["A8"] is in
    band and unseen, its [minLimit] 6000 is greater than [max_buy] and not
    greater than its [maxLimit] 7000; no order is placed. *)
Lemma max_buy_counterexample :
  (in_band (fl 1400) (fl 1455) (fl 1420) = true /\
   is_seen (ad_id_of no_str A4 (fl 1420)) [] = Some false /\
   to_float no_parse (min_limit_of A4) = Some (halves 24001) /\
   int_lt_float 12000 (halves 24001) = true /\
   int_gt_float 50000 (halves 24001) = true /\
   trace (exec (process (answering accepted) (PDict A4))
            (with_amounts 10000 12000))
   = [EvOrder (PDict A4) 12000 accepted;
      EvRecord (record_of A4 (PStr "A4") (fl 1420) 12000 accepted (clk 1));
      EvSave;
      EvNotify (PStr "A4") (fl 1420) 12000 (PStr "O1");
      EvSeen (PStr "A4")] /\
   ~ exists amt resp,
       In (EvOrder (PDict A4) amt resp)
          (trace (exec (process (answering accepted) (PDict A4))
                    (with_amounts 10000 12000))) /\
       max_buy (st (with_amounts 10000 12000)) < amt) /\
  (is_seen (ad_id_of no_str A8 (fl 1420)) [] = Some false /\
   to_float no_parse (min_limit_of A8) = Some (fl 6000) /\
   int_lt_float 5000 (fl 6000) = true /\
   int_gt_float 7000 (fl 6000) = true /\
   trace (exec (process (answering accepted) (PDict A8))
            (with_amounts 100000 5000))
   = [EvInfeasible (PStr "A8") 100000 (fl 7000)] /\
   ~ exists amt resp,
       In (EvOrder (PDict A8) amt resp)
          (trace (exec (process (answering accepted) (PDict A8))
                    (with_amounts 100000 5000)))).
Proof.
  split.
  - do 6 (split; [reflexivity|]).
    intros (amt & resp & Hin & Hlt).
    change (In (EvOrder (PDict A4) amt resp)
              [EvOrder (PDict A4) 12000 accepted;
               EvRecord (record_of A4 (PStr "A4") (fl 1420) 12000 accepted (clk 1));
               EvSave;
               EvNotify (PStr "A4") (fl 1420) 12000 (PStr "O1");
               EvSeen (PStr "A4")]) in Hin.
    simpl in Hlt.
    destruct Hin as [E|[E|[E|[E|[E|[]]]]]]; try discriminate.
    injection E as <- _. lia.
  - do 5 (split; [reflexivity|]).
    intros (amt & resp & Hin).
    change (In (EvOrder (PDict A8) amt resp)
              [EvInfeasible (PStr "A8") 100000 (fl 7000)]) in Hin.
    destruct Hin as [E|[]]. discriminate.
Qed.

(** C10, amended, on a listing whose [minLimit] is 12000.5: the amount is
    12000 and the order is placed with it. *)
Lemma clamp_truncates_to_floor_witness :
  clamp_up (configured_min_buy (st w0)) (halves 24001) = Some 12000 /\
  int_lt_float 12000 (halves 24001) = true /\
  exists resp rest,
    trace (exec (process (answering accepted) (PDict A4)) w0)
    = trace w0 ++ EvOrder (PDict A4) 12000 resp :: rest.
Proof.
  assert (Hq : float_value (halves 24001)
               = Some (6597344644562944 # 549755813888)) by reflexivity.
  destruct (clamp_truncates_to_floor clk no_parse no_str first_member
              (answering accepted) w0 A4 (fl 1420) (halves 24001) (fl 50000)
              (6597344644562944 # 549755813888)
              eq_refl eq_refl eq_refl eq_refl eq_refl Hq)
    as (H1 & _ & H3).
  - vm_compute. discriminate.
  - vm_compute. discriminate.
  - vm_compute. reflexivity.
  - split; [exact H1|]. split; [reflexivity|]. exact (H3 eq_refl eq_refl).
Defined.

(** C10 as stated fails twice.

    With [min_buy] 10000, the listing ["A6"] is in band and unseen and its
    [minLimit] 12000.5 is not an integer and exceeds [min_buy]; the chosen
    amount 12000 exceeds its [maxLimit] 11000 and no order is placed.

    With [min_buy] -10, the listing ["A7"] is in band and unseen and its
    [minLimit] -2.5 is not an integer and exceeds [min_buy]; the order is
    placed with amount -2, which is above [minLimit]; the floor is -3. *)
Lemma clamp_counterexample :
  (is_seen (ad_id_of no_str A6 (fl 1420)) [] = Some false /\
   to_float no_parse (min_limit_of A6) = Some (halves 24001) /\
   int_lt_float 10000 (halves 24001) = true /\
   trace (exec (process (answering accepted) (PDict A6)) w0)
   = [EvInfeasible (PStr "A6") 12000 (fl 11000)] /\
   ~ exists amt resp,
       In (EvOrder (PDict A6) amt resp)
          (trace (exec (process (answering accepted) (PDict A6)) w0))) /\
  (is_seen (ad_id_of no_str A7 (fl 1420)) [] = Some false /\
   to_float no_parse (min_limit_of A7) = Some (halves (-5)) /\
   int_lt_float (-10) (halves (-5)) = true /\
   float_value (halves (-5)) = Some (-5629499534213120 # 2251799813685248) /\
   Qfloor (-5629499534213120 # 2251799813685248) = -3 /\
   int_gt_float (-2) (halves (-5)) = true /\
   exists rest,
     trace (exec (process (answering accepted) (PDict A7))
              (with_amounts (-10) 1000000))
     = EvOrder (PDict A7) (-2) accepted :: rest).
Proof.
  split.
  - do 4 (split; [reflexivity|]).
    intros (amt & resp & Hin).
    change (In (EvOrder (PDict A6) amt resp)
              [EvInfeasible (PStr "A6") 12000 (fl 11000)]) in Hin.
    destruct Hin as [E|[]]. discriminate.
  - do 6 (split; [reflexivity|]).
    eexists. reflexivity.
Qed.

(** C3 does not hold of the code. For the in-band, unseen listing
    ["A4"] with [minLimit] 12000.5 and [maxLimit] 50000, and the configured
    [min_buy] 10000, the clamp yields 12000 and the order is placed with
    that amount, which is below the listing's [minLimit]. (With [minLimit]
    12000, the listing ["A3"], the amount is 12000.) *)
Lemma clamp_leaves_amount_below_min_limit :
  (to_float no_parse (min_limit_of A4) = Some (halves 24001) /\
   clamp_up (configured_min_buy st0) (halves 24001) = Some 12000 /\
   int_lt_float 12000 (halves 24001) = true /\
   exists rest,
     trace (exec (process (answering accepted) (PDict A4)) w0)
     = EvOrder (PDict A4) 12000 accepted :: rest) /\
  (clamp_up (configured_min_buy st0) (fl 12000) = Some 12000 /\
   exists rest,
     trace (exec (process (answering accepted) (PDict A3)) w0)
     = EvOrder (PDict A3) 12000 accepted :: rest).
Proof.
  split.
  - do 3 (split; [reflexivity|]). eexists. reflexivity.
  - split; [reflexivity|]. eexists. reflexivity.
Qed.

(** C5 does not hold of the code. When the gateway answers the order
    for ["A1"] with a dictionary whose ["data"] is a list, the record is
    inserted and saved, but extracting the order identifier raises: no
    notification is handed over, the identifier is not added to the seen
    set, and the next presentation of the same listing places a second
    order. (With an answer that carries an ["orderId"], or with [None], the
    identifier is added.) *)
Lemma unusable_answer_leaves_listing_unseen :
  (order_id_of wrapped = None /\
   trace (exec (process (answering wrapped) (PDict A1)) w0)
   = [EvOrder (PDict A1) 10000 wrapped;
      EvRecord (record_of A1 (PStr "A1") (fl 1420) 10000 wrapped (clk 1));
      EvSave] /\
   seen_ads (exec (process (answering wrapped) (PDict A1)) w0) = [] /\
   trace (exec (process (answering wrapped) (PDict A1))
            (exec (process (answering wrapped) (PDict A1)) w0))
   = [EvOrder (PDict A1) 10000 wrapped;
      EvRecord (record_of A1 (PStr "A1") (fl 1420) 10000 wrapped (clk 1));
      EvSave;
      EvOrder (PDict A1) 10000 wrapped;
      EvRecord (record_of A1 (PStr "A1") (fl 1420) 10000 wrapped (clk 4));
      EvSave]) /\
  seen_ads (exec (process (answering accepted) (PDict A1)) w0) = [PStr "A1"] /\
  seen_ads (exec (process failing (PDict A1)) w0) = [PStr "A1"].
Proof.
  repeat split; reflexivity.
Qed.

(** C7 does not hold of the code. With a history holding a record
    stamped more than ten days before and a record whose timestamp carries
    a UTC offset, the invocation raises at the comparison and leaves the
    history as it was: the expired record is still there. (Without the
    second record the first is removed.) *)
Lemma aware_timestamp_stops_pruning :
  (prune_history clk
     (with_state
        (set_history [old_record (TsNaive 0); old_record (TsAware 0)] st0) w0)
   = (None,
      with_tick 1
        (with_state
           (set_history [old_record (TsNaive 0); old_record (TsAware 0)] st0)
           w0)) /\
   expired (clk 0) (old_record (TsNaive 0))) /\
  prune_history clk (with_state (set_history [old_record (TsNaive 0)] st0) w0)
  = (Some tt, with_tick 1 w0).
Proof.
  split; [split; [reflexivity|] | reflexivity].
  exists 0. split; reflexivity.
Qed.

End Scenarios.

(** * More of the engine *)

(** ** The gateway tries its candidate methods in order *)

Section Gateway.

Variable py_str : pyval -> string.

Lemma calls_cons_some c name names m :
  c name = Some m -> calls c (name :: names) = S (calls c names).
Proof. intros H. unfold calls; simpl. now rewrite H. Qed.

Lemma calls_cons_none c name names :
  c name = None -> calls c (name :: names) = calls c names.
Proof. intros H. unfold calls; simpl. now rewrite H. Qed.

Lemma with_tick_twice n k w : with_tick n (with_tick k w) = with_tick n w.
Proof. reflexivity. Qed.

Lemma order_via_falls_back c params name post m v : forall pre w,
  Forall (raises_always c) pre ->
  c name = Some m ->
  m params (tick w + calls c pre)%nat = Returned v ->
  order_via c (pre ++ name :: post) params w
  = (Some v, with_tick (tick w + calls c pre + 1) w).
Proof.
  induction pre as [|x pre IH]; intros w Hpre Hc Hm.
  - simpl. rewrite Hc. unfold bind, call; simpl.
    unfold calls in Hm; simpl in Hm. rewrite Nat.add_0_r in Hm. rewrite Hm.
    apply f_equal, (f_equal (fun n => with_tick n w)).
    unfold calls; simpl. lia.
  - inversion Hpre as [|? ? Hx Hrest]; subst. simpl.
    unfold raises_always in Hx. destruct (c x) as [m'|] eqn:Ex.
    + unfold bind, call; simpl. rewrite Hx.
      rewrite (calls_cons_some _ _ _ _ Ex) in *.
      rewrite (IH (with_tick (S (tick w)) w) Hrest Hc).
      * simpl. rewrite with_tick_twice.
        apply f_equal, (f_equal (fun n => with_tick n w)). lia.
      * simpl. rewrite <- Hm. f_equal. lia.
    + rewrite (calls_cons_none _ _ _ Ex) in *. now apply IH.
Qed.

(** X1. [create_buy_order] takes the answer of the first candidate method
    that does not raise: once the methods before it are missing or raise,
    the order is answered by that method, after one call for each method that
    exists among those before it, and no later candidate is called. *)
Theorem create_buy_order_falls_back c d amt pre name post m v w :
  truthy (placing_id d) = true ->
  order_method_names = pre ++ name :: post ->
  Forall (raises_always c) pre ->
  c name = Some m ->
  m (order_params py_str d amt) (tick w + calls c pre)%nat = Returned v ->
  create_buy_order py_str (Some c) d amt w
  = (Some v, with_tick (tick w + calls c pre + 1) w).
Proof.
  intros Hid Hnames Hpre Hc Hm. unfold create_buy_order.
  fold (placing_id d). rewrite Hid. cbv beta iota delta [negb].
  rewrite Hnames.
  exact (order_via_falls_back c _ name post m v pre w Hpre Hc Hm).
Qed.

Lemma ads_via_falls_back c params name post m l : forall pre w,
  Forall (lists_nothing c) pre ->
  c name = Some m ->
  listings_in (m params (tick w + calls c pre)%nat) = Some l ->
  ads_via c (pre ++ name :: post) params w
  = (Some l, with_tick (tick w + calls c pre + 1) w).
Proof.
  induction pre as [|x pre IH]; intros w Hpre Hc Hm.
  - simpl. rewrite Hc. unfold bind, call; simpl.
    unfold calls in Hm; simpl in Hm. rewrite Nat.add_0_r in Hm.
    assert (Et : with_tick (tick w + calls c [] + 1) w = with_tick (S (tick w)) w).
    { apply (f_equal (fun n => with_tick n w)). unfold calls; simpl. lia. }
    rewrite Et. unfold listings_in in Hm.
    destruct (m params (tick w)) as [[| | | | |l'|d']|]; try discriminate.
    + now injection Hm as ->.
    + destruct (py_or (py_or (py_or (dict_get d' "items") (dict_get d' "data"))
                             (dict_get d' "ads")) (dict_get d' "result"));
        try discriminate. now injection Hm as ->.
  - inversion Hpre as [|? ? Hx Hrest]; subst. simpl.
    unfold lists_nothing in Hx. destruct (c x) as [m'|] eqn:Ex.
    + unfold bind, call; simpl.
      rewrite (calls_cons_some _ _ _ _ Ex) in *.
      assert (E : ads_via c (pre ++ name :: post) params (with_tick (S (tick w)) w)
                  = (Some l, with_tick (tick w + S (calls c pre) + 1) w)).
      { rewrite (IH (with_tick (S (tick w)) w) Hrest Hc).
        - simpl. rewrite with_tick_twice.
          apply f_equal, (f_equal (fun n => with_tick n w)). lia.
        - simpl. rewrite <- Hm. do 2 f_equal. lia. }
      specialize (Hx params (tick w)). unfold listings_in in Hx.
      destruct (m' params (tick w)) as [[| | | | |l'|d']|]; try exact E;
        try discriminate.
      destruct (py_or (py_or (py_or (dict_get d' "items") (dict_get d' "data"))
                             (dict_get d' "ads")) (dict_get d' "result"));
        try exact E; discriminate.
    + rewrite (calls_cons_none _ _ _ Ex) in *. now apply IH.
Qed.

(** X2. [get_online_ads] returns the listings of the first candidate method
    whose answer holds a list: a bare list, or a dictionary with a list under
    the first of ["items"], ["data"], ["ads"], ["result"] whose value is
    truthy. The methods before it are missing, raise, or answer without such
    a list (an empty list under ["items"] is passed over); it costs one call
    for each existing method up to that one, and no later one is called. *)
Theorem get_online_ads_falls_back c pre name post m l w :
  listing_method_names = pre ++ name :: post ->
  Forall (lists_nothing c) pre ->
  c name = Some m ->
  listings_in (m (listing_params (st w)) (tick w + calls c pre)%nat) = Some l ->
  get_online_ads (Some c) w
  = (Some l, with_tick (tick w + calls c pre + 1) w).
Proof.
  intros Hnames Hpre Hc Hm. unfold get_online_ads.
  cbv beta iota delta [bind gets].
  change ["get_online_ads"; "get_ads_list"; "get_ads"; "get_ads_online"]
    with listing_method_names.
  rewrite Hnames.
  exact (ads_via_falls_back c _ name post m l pre w Hpre Hc Hm).
Qed.

End Gateway.

(** ** What a cycle leaves behind *)

Section Accounts.

Variable clock : nat -> Z.
Variable float_of_str : string -> option float.
Variable py_str : pyval -> string.
Variable pick : list pyval -> nat.
Variable client : option (string -> option method).

Local Abbreviation create := (create_buy_order py_str client).
Local Abbreviation place := (place_and_record clock py_str pick client).
Local Abbreviation body := (ad_body clock float_of_str py_str pick client).
Local Abbreviation process := (process_ad clock float_of_str py_str pick client).
Local Abbreviation loop := (for_ads clock float_of_str py_str pick client).
Local Abbreviation cycle := (worker_cycle clock float_of_str py_str pick client).
Local Abbreviation order_block := (order_block float_of_str py_str).

(** *** The seen set *)

Lemma In_firstn {A : Type} (x : A) : forall n l, In x (firstn n l) -> In x l.
Proof.
  induction n as [|n IH]; intros [|y l]; simpl; try contradiction.
  intros [H|H]; [now left | right; now apply IH].
Qed.

Lemma In_skipn {A : Type} (x : A) : forall n l, In x (skipn n l) -> In x l.
Proof.
  induction n as [|n IH]; intros [|y l]; simpl; try contradiction; auto.
Qed.

Lemma set_pop_In s x : In x (set_pop pick s) -> In x s.
Proof.
  unfold set_pop. intros H. apply in_app_or in H.
  destruct H as [H|H]; [exact (In_firstn x _ _ H) | exact (In_skipn x _ _ H)].
Qed.

(** [pop] removes exactly one member. *)
Lemma set_pop_length s :
  s <> [] -> S (List.length (set_pop pick s)) = List.length s.
Proof.
  intros Hs. unfold set_pop.
  assert (Hl : List.length s <> 0%nat) by (destruct s; [congruence | discriminate]).
  pose proof (Nat.mod_upper_bound (pick s) (List.length s) Hl) as Hi.
  rewrite length_app, length_firstn, length_skipn. lia.
Qed.

Lemma set_add_In id s x : In x (set_add id s) -> x = id \/ In x s.
Proof.
  unfold set_add. destruct (existsb (py_eqb id) s); simpl; intuition.
Qed.

Lemma set_add_length id s :
  (List.length (set_add id s) <= S (List.length s))%nat.
Proof. unfold set_add. destruct (existsb (py_eqb id) s); simpl; lia. Qed.

Lemma seen_after_In id s x : In x (seen_after pick id s) -> x = id \/ In x s.
Proof.
  unfold seen_after.
  destruct (1000 <? List.length (set_add id s))%nat.
  - intros H. apply set_pop_In in H. now apply set_add_In.
  - apply set_add_In.
Qed.

(** After [add] and the bounded [pop], a set of at most 1000 members has at
    most 1000. *)
Lemma seen_after_bound id s :
  (List.length s <= 1000)%nat -> (List.length (seen_after pick id s) <= 1000)%nat.
Proof.
  intros Hs. unfold seen_after.
  pose proof (set_add_length id s) as Ha.
  destruct (1000 <? List.length (set_add id s))%nat eqn:E.
  - assert (Hne : set_add id s <> []).
    { intros H0. rewrite H0 in E. discriminate. }
    pose proof (set_pop_length _ Hne). lia.
  - apply Nat.ltb_ge in E. exact E.
Qed.

(** *** The amount *)

(** The clamp never lowers the amount. *)
Lemma clamp_up_lower n a m : clamp_up n a = Some m -> n <= m.
Proof.
  unfold clamp_up, int_lt_float.
  destruct (Z_compare_float n a) as [[| |]|] eqn:E;
    try (intros [= <-]; lia).
  destruct a as [s|s| |s mant e]; simpl in *; try discriminate.
  - intros [= <-]. injection E as E. change (n < 0) in E. lia.
  - intros [= <-]. injection E as E.
    destruct e as [|p|p];
      match type of E with (?x ?= ?y) = Lt => change (x < y) in E end;
      try lia.
    set (D := Z.pos (2 ^ p)) in *. set (F := fnum s mant) in *.
    assert (HD : 0 < D) by (unfold D; lia).
    destruct (Z_le_gt_dec 0 F) as [HF|HF].
    + rewrite Z.quot_div_nonneg by lia.
      apply Z.div_le_lower_bound; lia.
    + replace F with (- - F) by lia.
      rewrite Z.quot_opp_l by lia.
      rewrite Z.quot_div_nonneg by lia.
      assert (- F / D < - n) by (apply Z.div_lt_upper_bound; lia).
      lia.
Qed.

(** *** Runs *)

Lemma advances_refl w : advances w w [].
Proof.
  unfold advances. rewrite app_nil_r. repeat split; auto.
Qed.

Lemma advances_trans w w1 w2 n1 n2 :
  advances w w1 n1 -> advances w1 w2 n2 -> advances w w2 (n1 ++ n2).
Proof.
  intros (Ht1 & Hc1 & Hh1 & Hs1 & Hb1) (Ht2 & Hc2 & Hh2 & Hs2 & Hb2).
  unfold advances. repeat split.
  - rewrite Ht2, Ht1. now rewrite app_assoc.
  - congruence.
  - intros r Hr. destruct (Hh2 r Hr) as [H|H].
    + destruct (Hh1 r H) as [H'|H']; [now left | right; apply in_or_app; now left].
    + right; apply in_or_app; now right.
  - intros x Hx. destruct (Hs2 x Hx) as [H|H].
    + destruct (Hs1 x H) as [H'|H']; [now left | right; apply in_or_app; now left].
    + right; apply in_or_app; now right.
  - auto.
Qed.

(** The blocks depend on the configuration only. *)
Lemma order_block_config s s' b :
  config_of s = config_of s' -> order_block s b -> order_block s' b.
Proof.
  intros H Hb.
  assert (Hmin : price_range_min s = price_range_min s')
    by exact (f_equal price_range_min H).
  assert (Hmax : price_range_max s = price_range_max s')
    by exact (f_equal price_range_max H).
  assert (Hbuy : configured_min_buy s = configured_min_buy s')
    by exact (f_equal configured_min_buy H).
  destruct Hb as [|id amt amax|d price a_min a_max amt resp ts H1 H2 H3 H4 H5 H6 H7].
  - constructor.
  - constructor.
  - rewrite Hmin, Hmax in H3. rewrite Hbuy in H6.
    exact (oblock_placed float_of_str py_str s' d price a_min a_max amt resp ts
             H1 H2 H3 H4 H5 H6 H7).
Qed.

(** The outcomes of the loop body, with the limits of the listing and the
    amount that reaches the order. *)
Lemma body_outcomes_full ad w :
  (body ad w = (Some tt, w) \/ body ad w = (None, w)) \/
  (exists id amt amax,
      body ad w
      = (Some tt, with_trace (trace w ++ [EvInfeasible id amt amax]) w)) \/
  (exists d price a_min a_max amt,
      ad = PDict d /\
      is_none (price_str_of d) = false /\
      to_float float_of_str (price_str_of d) = Some price /\
      in_band (price_range_min (st w)) (price_range_max (st w)) price = true /\
      to_float float_of_str (min_limit_of d) = Some a_min /\
      to_float float_of_str (max_limit_of d) = Some a_max /\
      clamp_up (configured_min_buy (st w)) a_min = Some amt /\
      int_gt_float amt a_max = false /\
      body ad w = place d (ad_id_of py_str d price) price amt w).
Proof.
  unfold ad_body.
  destruct ad as [| | | | |l|d]; try (left; right; reflexivity).
  cbv beta iota zeta delta
    [bind gets ret raise lift py_float set_mem as_dict].
  destruct (is_none (price_str_of d)) eqn:Hnone; [left; left; reflexivity|].
  destruct (to_float float_of_str (price_str_of d)) as [price|] eqn:Hp;
    [|left; right; reflexivity].
  cbv beta iota.
  destruct (is_seen (ad_id_of py_str d price) (seen_ads w)) as [[|]|];
    [left; left; reflexivity| |left; right; reflexivity].
  cbv beta iota.
  destruct (in_band (price_range_min (st w)) (price_range_max (st w)) price)
    eqn:Hband; [|left; left; reflexivity].
  destruct (to_float float_of_str (min_limit_of d)) as [a_min|] eqn:Hmin;
    [|left; right; reflexivity].
  cbv beta iota.
  destruct (to_float float_of_str (max_limit_of d)) as [a_max|] eqn:Hmax;
    [|left; right; reflexivity].
  cbv beta iota.
  destruct (clamp_up (configured_min_buy (st w)) a_min) as [amt|] eqn:Hc;
    [|left; right; reflexivity].
  cbv beta iota.
  destruct (int_gt_float amt a_max) eqn:Hgt.
  - right; left. exists (ad_id_of py_str d price), amt, a_max. reflexivity.
  - right; right. exists d, price, a_min, a_max, amt. repeat split; auto.
Qed.

(** One listing, from a world whose history holds no offset-aware
    timestamp. *)
Lemma process_report ad w :
  existsb is_aware (history (st w)) = false ->
  existsb is_aware (history (st (exec (process ad) w))) = false /\
  exists b, advances w (exec (process ad) w) b /\ order_block (st w) b.
Proof.
  intros Ha. unfold process_ad. rewrite exec_try_except. unfold exec.
  destruct (body_outcomes_full ad w)
    as [[E|E] | [(id & amt & amax & E)
                | (d & price & a_min & a_max & amt & _ & Hn & Hp & Hb & Hmin
                   & Hmax & Hc & Hgt & E)]];
    rewrite E; simpl.
  - split; [exact Ha|]. exists []. split; [apply advances_refl | constructor].
  - split; [exact Ha|]. exists []. split; [apply advances_refl | constructor].
  - split; [exact Ha|]. exists [EvInfeasible id amt amax].
    split; [|apply oblock_infeasible].
    unfold advances; simpl. repeat split; auto.
  - destruct (place_and_record_spec clock py_str pick client d
                (ad_id_of py_str d price) price amt w Ha)
      as (resp & n1 & n2 & h & Ec & Hs & _ & Ep).
    rewrite Ep.
    assert (Hh : existsb is_aware h = false).
    { apply (subseq_no_aware _ _ Hs). simpl. exact Ha. }
    assert (Hin : forall r, In r h ->
               In r (history (st w)) \/
               r = record_of d (ad_id_of py_str d price) price amt resp (clock n1)).
    { intros r Hr. destruct (subseq_In _ _ Hs r Hr) as [<-|H]; auto. }
    split; [destruct (order_id_of resp); exact Hh|].
    eexists. split;
      [|exact (oblock_placed float_of_str py_str (st w) d price a_min a_max amt
                 resp (clock n1) Hn Hp Hb Hmin Hmax Hc Hgt)].
    destruct (order_id_of resp) as [oid|]; unfold advances; simpl.
    + repeat split; auto.
      * intros r Hr. destruct (Hin r Hr) as [H| ->]; auto.
      * intros x Hx. destruct (seen_after_In _ _ _ Hx) as [->|H]; auto 10.
      * apply seen_after_bound.
    + repeat split; auto.
      intros r Hr. destruct (Hin r Hr) as [H| ->]; auto.
Qed.

Lemma loop_report ads : forall w,
  existsb is_aware (history (st w)) = false ->
  exists bs,
    advances w (exec (loop ads) w) (List.concat bs) /\
    Forall (order_block (st w)) bs.
Proof.
  induction ads as [|ad rest IH]; intros w Ha.
  - exists []. split; [apply advances_refl | constructor].
  - assert (E : exec (loop (ad :: rest)) w = exec (loop rest) (exec (process ad) w)).
    { unfold exec at 1. simpl. unfold bind.
      rewrite (process_returns clock float_of_str py_str pick client).
      reflexivity. }
    rewrite E.
    destruct (process_report ad w Ha) as (Ha1 & b & Hadv & Hblock).
    destruct (IH _ Ha1) as (bs & Hadvs & Hblocks).
    exists (b :: bs). split.
    + simpl. exact (advances_trans _ _ _ _ _ Hadv Hadvs).
    + constructor; [exact Hblock|].
      destruct Hadv as (_ & Hcfg & _).
      eapply Forall_impl; [|exact Hblocks].
      intros b'. now apply order_block_config.
Qed.

(** One cycle, from any world: what it emits is a sequence of blocks, and it
    advances the world by them. *)
Lemma cycle_report w :
  exists bs,
    advances w (exec cycle w) (List.concat bs) /\
    Forall (order_block (st w)) bs.
Proof.
  assert (Hnil : forall n, exists bs,
             advances w (with_tick n w) (List.concat bs) /\
             Forall (order_block (st w)) bs).
  { intros n. exists []. split; [|constructor].
    unfold advances; simpl. rewrite app_nil_r. repeat split; auto. }
  unfold worker_cycle. rewrite exec_try_except. unfold exec.
  unfold bind at 1. unfold gets at 1. cbv beta iota.
  destruct (bot_running (st w)); cbv beta iota delta [negb].
  2:{ exists []. split; [apply advances_refl | constructor]. }
  destruct (existsb is_aware (history (st w))) eqn:Ha.
  - destruct (prune_history_raises clock w Ha) as (n & _ & E).
    rewrite (bind_none _ _ _ _ E). apply Hnil.
  - destruct (prune_history_returns clock w Ha) as (n & h & _ & Hs & E).
    rewrite (bind_some _ _ _ _ _ E).
    set (w1 := with_tick n (with_state (set_history h (st w)) w)).
    destruct (get_online_ads_total client w1) as (ads & n' & Eg).
    rewrite (bind_some _ _ _ _ _ Eg).
    set (w2 := with_tick n' w1).
    assert (Ha2 : existsb is_aware (history (st w2)) = false).
    { simpl. exact (subseq_no_aware _ _ Hs Ha). }
    assert (H12 : advances w w2 []).
    { unfold advances; simpl. rewrite app_nil_r. repeat split; auto.
      intros r Hr. left. exact (subseq_In _ _ Hs r Hr). }
    destruct (loop_report ads w2 Ha2) as (bs & Hadv & Hblocks).
    exists bs. split.
    + destruct ads as [|ad rest].
      * simpl in *. exact (advances_trans _ _ _ _ _ H12 Hadv).
      * exact (advances_trans _ _ _ _ _ H12 Hadv).
    + eapply Forall_impl; [|exact Hblocks].
      intros b'. now apply order_block_config.
Qed.

(** *** Inside a block *)

Ltac in_block H :=
  repeat (destruct H as [H|H]; [try discriminate H|]); try contradiction.

Lemma block_record_has_order s b r :
  order_block s b -> In (EvRecord r) b ->
  In (EvOrder (ad_raw r) (amount r) (order_response r)) b.
Proof.
  intros Hb Hin.
  destruct Hb as [|id amt amax|d price a_min a_max amt resp ts _ _ _ _ _ _ _].
  - contradiction.
  - destruct Hin as [E|[]]. discriminate.
  - destruct Hin as [E|[E|[E|Hin]]]; try discriminate.
    + injection E as <-. now left.
    + destruct (order_id_of resp); in_block Hin.
Qed.

Lemma block_order_limits s b ad amt resp :
  order_block s b -> In (EvOrder ad amt resp) b ->
  exists d price a_min a_max,
    ad = PDict d /\
    to_float float_of_str (price_str_of d) = Some price /\
    in_band (price_range_min s) (price_range_max s) price = true /\
    to_float float_of_str (min_limit_of d) = Some a_min /\
    to_float float_of_str (max_limit_of d) = Some a_max /\
    clamp_up (configured_min_buy s) a_min = Some amt /\
    int_gt_float amt a_max = false.
Proof.
  intros Hb Hin.
  destruct Hb as [|id a amax|d price a_min a_max a resp' ts H1 H2 H3 H4 H5 H6 H7].
  - contradiction.
  - destruct Hin as [E|[]]. discriminate.
  - destruct Hin as [E|[E|[E|Hin]]]; try discriminate.
    + injection E as <- <- <-. exists d, price, a_min, a_max. auto 10.
    + destruct (order_id_of resp'); in_block Hin.
Qed.

Lemma block_seen_notified s b x :
  order_block s b -> In (EvSeen x) b ->
  exists price amt oid, In (EvNotify x price amt oid) b.
Proof.
  intros Hb Hin.
  destruct Hb as [|id a amax|d price a_min a_max a resp ts _ _ _ _ _ _ _].
  - contradiction.
  - destruct Hin as [E|[]]. discriminate.
  - destruct Hin as [E|[E|[E|Hin]]]; try discriminate.
    destruct (order_id_of resp) as [oid|]; [|contradiction].
    destruct Hin as [E|[E|[]]]; try discriminate. injection E as <-.
    exists price, a, oid. simpl. auto.
Qed.

(** In a block the notification stands right after the order, its record
    and the save, and right before the mark. *)
Lemma block_notify_position s b p1 id price amt oid p2 :
  order_block s b ->
  b = p1 ++ EvNotify id price amt oid :: p2 ->
  exists d resp ts,
    p1 = [EvOrder (PDict d) amt resp;
          EvRecord (record_of d id price amt resp ts); EvSave] /\
    order_id_of resp = Some oid /\
    p2 = [EvSeen id].
Proof.
  intros Hb E.
  destruct Hb as [|i a amax|d pr a_min a_max a resp ts _ _ _ _ _ _ _].
  - destruct p1; discriminate.
  - destruct p1 as [|? [|? ?]]; discriminate.
  - destruct p1 as [|e1 [|e2 [|e3 p1]]]; try discriminate.
    injection E as <- <- <- E.
    destruct (order_id_of resp) as [o|] eqn:Ho.
    + destruct p1 as [|e4 [|e5 [|e6 p1]]]; try discriminate.
      injection E as <- <- <- <- <-. exists d, resp, ts. auto.
    + destruct p1; discriminate.
Qed.

Lemma concat_split {A : Type} (e : A) post : forall bs pre,
  List.concat bs = pre ++ e :: post ->
  exists bs1 b bs2 p1 p2,
    bs = bs1 ++ b :: bs2 /\ b = p1 ++ e :: p2 /\
    pre = List.concat bs1 ++ p1 /\ post = p2 ++ List.concat bs2.
Proof.
  induction bs as [|b bs IH]; intros pre E; simpl in E.
  - destruct pre; discriminate.
  - apply app_eq_app in E. destruct E as (l & [[Hb Hl]|[Hp Hl]]).
    + destruct l as [|e' l].
      * simpl in Hl. symmetry in Hl. destruct (IH [] Hl)
          as (bs1 & b' & bs2 & p1 & p2 & -> & -> & H1 & ->).
        exists (b :: bs1), (p1 ++ e :: p2), bs2, p1, p2.
        repeat split. simpl. rewrite <- app_assoc, <- H1.
        rewrite app_nil_r in Hb. now rewrite app_nil_r.
      * injection Hl as <- ->.
        exists [], b, bs, pre, l. repeat split; auto.
    + destruct (IH l Hl) as (bs1 & b' & bs2 & p1 & p2 & -> & -> & -> & ->).
      exists (b :: bs1), (p1 ++ e :: p2), bs2, p1, p2.
      repeat split. simpl. now rewrite <- app_assoc.
Qed.

(** *** The cycle *)

(** X3. A cycle of the worker changes the stored state by its history only:
    the configuration (market, price band, amounts, run flag) is what it
    was, and every record in the history afterwards either was there before
    or was written in this cycle for an order that the cycle placed, with
    that listing, that amount and that answer. *)
Theorem cycle_changes_only_the_history (w : world) :
  config_of (st (exec cycle w)) = config_of (st w) /\
  exists new,
    trace (exec cycle w) = trace w ++ new /\
    forall r, In r (history (st (exec cycle w))) ->
      In r (history (st w)) \/
      (In (EvRecord r) new /\
       In (EvOrder (ad_raw r) (amount r) (order_response r)) new).
Proof.
  destruct (cycle_report w) as (bs & (Ht & Hc & Hh & _) & Hblocks).
  rewrite Forall_forall in Hblocks.
  split; [exact Hc|]. exists (List.concat bs). split; [exact Ht|].
  intros r Hr. destruct (Hh r Hr) as [H|H]; [now left | right].
  split; [exact H|]. apply in_concat in H. destruct H as (b & Hb & Hin).
  apply in_concat. exists b. split; [exact Hb|].
  exact (block_record_has_order _ b r (Hblocks b Hb) Hin).
Qed.

(** X4. The seen set stays bounded: a cycle started with at most 1000
    identifiers in the seen set ends with at most 1000, and every identifier
    in it afterwards either was there before or was marked in this cycle,
    after the notification for it. *)
Theorem seen_set_stays_bounded (w : world) :
  (List.length (seen_ads w) <= 1000)%nat ->
  (List.length (seen_ads (exec cycle w)) <= 1000)%nat /\
  exists new,
    trace (exec cycle w) = trace w ++ new /\
    forall x, In x (seen_ads (exec cycle w)) ->
      In x (seen_ads w) \/
      exists price amt oid, In (EvNotify x price amt oid) new.
Proof.
  intros Hlen.
  destruct (cycle_report w) as (bs & (Ht & _ & _ & Hs & Hb) & Hblocks).
  rewrite Forall_forall in Hblocks.
  split; [exact (Hb Hlen)|]. exists (List.concat bs). split; [exact Ht|].
  intros x Hx. destruct (Hs x Hx) as [H|H]; [now left | right].
  apply in_concat in H. destruct H as (b & Hin & Hx').
  destruct (block_seen_notified _ b x (Hblocks b Hin) Hx')
    as (price & amt & oid & Hn).
  exists price, amt, oid. apply in_concat. exists b. auto.
Qed.

(** X5. Every order that a cycle places respects the limits: it is placed
    against a dictionary listing whose price parses to a value inside the
    configured band, its amount is the configured [min_buy] clamped up by the
    listing's lower limit, hence never below the configured [min_buy], and
    it does not exceed the listing's upper limit. *)
Theorem orders_respect_the_limits (w : world) :
  exists new,
    trace (exec cycle w) = trace w ++ new /\
    forall ad amt resp, In (EvOrder ad amt resp) new ->
      exists d price a_min a_max,
        ad = PDict d /\
        to_float float_of_str (price_str_of d) = Some price /\
        in_band (price_range_min (st w)) (price_range_max (st w)) price = true /\
        to_float float_of_str (min_limit_of d) = Some a_min /\
        to_float float_of_str (max_limit_of d) = Some a_max /\
        clamp_up (configured_min_buy (st w)) a_min = Some amt /\
        configured_min_buy (st w) <= amt /\
        int_gt_float amt a_max = false.
Proof.
  destruct (cycle_report w) as (bs & (Ht & _) & Hblocks).
  rewrite Forall_forall in Hblocks.
  exists (List.concat bs). split; [exact Ht|].
  intros ad amt resp Hin. apply in_concat in Hin. destruct Hin as (b & Hb & Hin).
  destruct (block_order_limits _ b ad amt resp (Hblocks b Hb) Hin)
    as (d & price & a_min & a_max & H1 & H2 & H3 & H4 & H5 & H6 & H7).
  exists d, price, a_min, a_max. repeat split; auto.
  exact (clamp_up_lower _ _ _ H6).
Qed.

(** X6. The operator is notified only of what is already on record: in the
    events of a cycle, every notification stands right after the order it
    reports, the history record of that order (same listing identifier,
    price and amount) and the save of the state, and right before the mark
    of that identifier in the seen set. *)
Theorem notification_follows_record_and_save (w : world) :
  exists new,
    trace (exec cycle w) = trace w ++ new /\
    forall pre id price amt oid post,
      new = pre ++ EvNotify id price amt oid :: post ->
      exists pre' d resp ts post',
        pre = pre' ++ [EvOrder (PDict d) amt resp;
                       EvRecord (record_of d id price amt resp ts); EvSave] /\
        order_id_of resp = Some oid /\
        post = EvSeen id :: post'.
Proof.
  destruct (cycle_report w) as (bs & (Ht & _) & Hblocks).
  rewrite Forall_forall in Hblocks.
  exists (List.concat bs). split; [exact Ht|].
  intros pre id price amt oid post E.
  destruct (concat_split _ _ _ _ E)
    as (bs1 & b & bs2 & p1 & p2 & Hbs & Hb & Hpre & Hpost).
  assert (Hin : In b bs) by (rewrite Hbs; apply in_or_app; right; now left).
  destruct (block_notify_position _ b p1 id price amt oid p2 (Hblocks b Hin) Hb)
    as (d & resp & ts & -> & Ho & ->).
  exists (List.concat bs1), d, resp, ts, (List.concat bs2). auto.
Qed.

End Accounts.

(** ** A listing that carries no identifier *)

Section Anonymous.

Variable clock : nat -> Z.
Variable float_of_str : string -> option float.
Variable py_str : pyval -> string.
Variable pick : list pyval -> nat.
Variable client : option (string -> option method).

Local Abbreviation create := (create_buy_order py_str client).
Local Abbreviation process := (process_ad clock float_of_str py_str pick client).




End Anonymous.

(** ** Pruning under a running clock *)

Section Pruning.

Variable clock : nat -> Z.

Local Abbreviation prune := (prune_history clock).

Lemma subseq_refl {A : Type} (l : list A) : subseq l l.
Proof. induction l; now constructor. Qed.

Lemma set_history_same w :
  with_state (set_history (history (st w)) (st w)) w = w.
Proof. now destruct w as [[] ? ? ?]. Qed.

(** X8. Pruning only removes: whatever the clock reads and whatever the
    history holds, whether the invocation returns or raises, the history
    afterwards is the history before with some records taken out, the others
    unchanged and in their order; and nothing but the history is touched. *)
Theorem prune_history_only_removes (w : world) :
  exists n h,
    (tick w < n)%nat /\
    subseq h (history (st w)) /\
    exec prune w = with_tick n (with_state (set_history h (st w)) w).
Proof.
  unfold exec. destruct (existsb is_aware (history (st w))) eqn:Ha.
  - destruct (prune_history_raises clock w Ha) as (n & Hn & E).
    exists n, (history (st w)). split; [exact Hn|].
    split; [apply subseq_refl|]. rewrite E. simpl.
    now rewrite set_history_same.
  - destruct (prune_history_returns clock w Ha) as (n & h & Hn & Hs & E).
    exists n, h. rewrite E. auto.
Qed.

(** X9. With no offset-aware timestamp in the history, and a clock that
    never falls more than ten days behind its reading at the invocation,
    pruning returns and keeps exactly the records stamped no earlier than ten
    days before that reading, together with those whose timestamp does not
    parse: a record stamped in the future is kept, the window has no upper
    end. *)
Theorem prune_history_keeps_the_recent_records (w : world) :
  existsb is_aware (history (st w)) = false ->
  (forall n, (tick w < n)%nat -> clock (tick w) - ten_days <= clock n) ->
  fst (prune w) = Some tt /\
  history (st (exec prune w))
  = filter (retained (clock (tick w))) (history (st w)) /\
  forall r ts, In r (history (st w)) -> timestamp_of r = TsNaive ts ->
    (In r (history (st (exec prune w))) <-> clock (tick w) - ten_days <= ts).
Proof.
  intros Ha Hc. destruct (prune_history_exact clock w Ha Hc) as (n & _ & E).
  unfold exec. rewrite E. simpl. split; [reflexivity|]. split; [reflexivity|].
  intros r ts Hin Hts. rewrite filter_In. unfold retained, kept. rewrite Hts.
  rewrite Z.leb_le. tauto.
Qed.

Lemma kept_earlier c0 c1 r : c0 <= c1 -> kept c1 r = true -> kept c0 r = true.
Proof.
  unfold kept. destruct (timestamp_of r); auto.
  rewrite !Z.leb_le. lia.
Qed.

Lemma filter_narrower {A : Type} (f g : A -> bool) (l : list A) :
  (forall x, f x = true -> g x = true) ->
  filter f (filter g l) = filter f l.
Proof.
  intros H. induction l as [|x l IH]; simpl; [reflexivity|].
  destruct (g x) eqn:Eg; simpl.
  - now rewrite IH.
  - destruct (f x) eqn:Ef; [|exact IH].
    rewrite (H x Ef) in Eg. discriminate.
Qed.

(** X10. Two prunings in a row amount to one pruning at the later time:
    under a clock that does not run backwards, and with no offset-aware
    timestamp in the history, the history after the second invocation is the
    original history filtered at the reading of the second invocation. *)
Theorem prune_history_twice_is_once_later (w : world) :
  existsb is_aware (history (st w)) = false ->
  (forall a b, (a <= b)%nat -> clock a <= clock b) ->
  history (st (exec prune (exec prune w)))
  = filter (retained (clock (tick (exec prune w)))) (history (st w)).
Proof.
  intros Ha Hmono.
  assert (Hten : 0 <= ten_days) by (unfold ten_days; lia).
  destruct (prune_history_exact clock w Ha) as (n1 & Hn1 & E1).
  { intros n Hn. pose proof (Hmono (tick w) n). lia. }
  unfold exec at 2 3. rewrite E1. simpl snd.
  set (w1 := with_tick n1 _).
  assert (Ha1 : existsb is_aware (history (st w1)) = false).
  { simpl. exact (subseq_no_aware _ _ (filter_subseq _ _) Ha). }
  destruct (prune_history_exact clock w1 Ha1) as (n2 & _ & E2).
  { intros n Hn. pose proof (Hmono (tick w1) n). lia. }
  unfold exec. rewrite E2. simpl.
  apply filter_narrower. intros r. unfold retained. apply kept_earlier.
  pose proof (Hmono (tick w) n1). lia.
Qed.

End Pruning.

(** * The chat side *)

(** ** [handle_text] *)

Section Settings.

Variable strip : string -> string.
Variable isdigit : string -> bool.
Variable int_of_str : string -> option Z.
Variable float_of_str : string -> option float.
Variable delivers : nat -> reply -> bool.

Local Abbreviation handle :=
  (handle_text strip isdigit int_of_str float_of_str delivers).

(** What a message can do to the state, and the answer that then reaches
    the chat. *)
Lemma handle_text_cases message s s' saved o :
  handle message s = (s', saved, o) ->
  (exists pmin pmax,
      float_le pmin pmax = true /\
      s' = set_price_range pmin pmax s /\ saved = true /\
      o = if delivers 0 (RangeSet pmin pmax)
          then Some (RangeSet pmin pmax)
          else answer delivers 1 RangeParseFailed) \/
  (exists n,
      n <= max_buy s /\ s' = set_min_buy n s /\ saved = true /\
      o = answer delivers 0 (MinBuySet n)) \/
  (exists n,
      max_buy s < n /\ s' = set_max_buy n s /\ saved = true /\
      o = answer delivers 0 (MaxBuySet n)) \/
  (s' = s /\ saved = false /\
   (o = None \/ o = Some MinAboveMax \/ o = Some RangeParseFailed \/
    o = Some NotUnderstood)).
Proof.
  unfold handle_text.
  set (text := strip match message with Some t => t | None => "" end).
  assert (Hanswer : forall n r, r = MinAboveMax \/ r = RangeParseFailed \/
                                r = NotUnderstood ->
            answer delivers n r = None \/ answer delivers n r = Some MinAboveMax \/
            answer delivers n r = Some RangeParseFailed \/
            answer delivers n r = Some NotUnderstood).
  { intros n r Hr. unfold answer. destruct (delivers n r); [|now left].
    destruct Hr as [-> | [-> | ->]]; auto. }
  assert (Hnum : forall x,
            x = (if isdigit text
                 then handle_number int_of_str delivers text s
                 else (s, false, answer delivers 0 NotUnderstood)) ->
            x = (s', saved, o) ->
            (exists n, n <= max_buy s /\ s' = set_min_buy n s /\ saved = true /\
                       o = answer delivers 0 (MinBuySet n)) \/
            (exists n, max_buy s < n /\ s' = set_max_buy n s /\ saved = true /\
                       o = answer delivers 0 (MaxBuySet n)) \/
            (s' = s /\ saved = false /\
             (o = None \/ o = Some MinAboveMax \/ o = Some RangeParseFailed \/
              o = Some NotUnderstood))).
  { intros x -> H. unfold handle_number in H.
    destruct (isdigit text).
    - destruct (int_of_str text) as [n|].
      + destruct (n <=? max_buy s) eqn:E; injection H as <- <- <-.
        * left. exists n. apply Z.leb_le in E. auto.
        * right; left. exists n. apply Z.leb_gt in E. auto.
      + injection H as <- <- <-. right; right. auto.
    - injection H as <- <- <-. right; right. auto 10. }
  destruct (split_once "-" text) as [a [b|]].
  - destruct (isdigit (remove_char "." (strip a)) &&
              isdigit (remove_char "." (strip b))).
    + unfold handle_range.
      destruct (float_of_str (strip a)) as [pmin|].
      * destruct (float_of_str (strip b)) as [pmax|].
        -- destruct (float_le pmin pmax) eqn:E.
           ++ intros H. left. exists pmin, pmax.
              destruct (delivers 0 (RangeSet pmin pmax));
                injection H as <- <- <-; auto.
           ++ intros H. right; right; right.
              destruct (delivers 0 MinAboveMax); injection H as <- <- <-; auto 10.
        -- intros [= <- <- <-]. right; right; right. auto 10.
      * intros [= <- <- <-]. right; right; right. auto 10.
    + intros H. right. exact (Hnum _ eq_refl H).
  - intros H. right. exact (Hnum _ eq_refl H).
Qed.

(** X11. A message never brings the amounts out of order: if the configured
    [min_buy] is at most [max_buy] before a message is handled, it is so
    afterwards, whether the handler answers or an exception leaves it; and
    no message lowers [max_buy] (a number that is not above the current
    [max_buy] always becomes the new [min_buy]). *)
Theorem handle_text_keeps_amounts_ordered message s s' saved o :
  configured_min_buy s <= max_buy s ->
  handle message s = (s', saved, o) ->
  configured_min_buy s' <= max_buy s' /\ max_buy s <= max_buy s'.
Proof.
  intros Hs H.
  destruct (handle_text_cases _ _ _ _ _ H)
    as [(pmin & pmax & _ & -> & _)
       | [(n & Hn & -> & _)
         | [(n & Hn & -> & _) | (-> & _)]]];
    unfold configured_min_buy in *; simpl; lia.
Qed.

(** X12. A message never brings the price band out of order: if the lower
    end is at most the upper end before a message is handled, it is so
    afterwards, whether the handler answers or an exception leaves it (a
    range whose ends are out of order is refused). *)
Theorem handle_text_keeps_band_ordered message s s' saved o :
  float_le (price_range_min s) (price_range_max s) = true ->
  handle message s = (s', saved, o) ->
  float_le (price_range_min s') (price_range_max s') = true.
Proof.
  intros Hs H.
  destruct (handle_text_cases _ _ _ _ _ H)
    as [(pmin & pmax & Hle & -> & _)
       | [(n & _ & -> & _)
         | [(n & _ & -> & _) | (-> & _)]]];
    simpl; assumption.
Qed.

(** X13. What a message changes, against the answer that reaches the chat:
    the history, the run flag and the market are never touched; a state that
    was not saved is unchanged; an answer that names a new setting, or
    ["Min must be <= Max"], or ["I didn't understand"], tells the truth (the
    named setting has the named value and nothing else changed, or nothing
    changed at all); but ["Failed to parse range"] also reaches the chat
    after the band was set and saved, when the send of the confirmation
    raised and the handler's [except] caught it. When no answer reaches the
    chat, nothing was changed or a send raised. *)
Theorem handle_text_answer_matches_change message s s' saved o :
  handle message s = (s', saved, o) ->
  history s' = history s /\ bot_running s' = bot_running s /\
  market_coin s' = market_coin s /\ market_fiat s' = market_fiat s /\
  market_watch_side s' = market_watch_side s /\
  (saved = false -> s' = s) /\
  match o with
  | Some (RangeSet pmin pmax) =>
      saved = true /\ s' = set_price_range pmin pmax s
  | Some (MinBuySet n) => saved = true /\ s' = set_min_buy n s
  | Some (MaxBuySet n) => saved = true /\ s' = set_max_buy n s
  | Some MinAboveMax | Some NotUnderstood => saved = false /\ s' = s
  | Some RangeParseFailed =>
      (saved = false /\ s' = s) \/
      exists pmin pmax,
        delivers 0 (RangeSet pmin pmax) = false /\
        float_le pmin pmax = true /\
        saved = true /\ s' = set_price_range pmin pmax s
  | None =>
      (saved = false /\ s' = s) \/ exists n r, delivers n r = false
  end.
Proof.
  intros H.
  assert (Hans : forall n r, answer delivers n r = Some r \/
                             (answer delivers n r = None /\ delivers n r = false)).
  { intros n r. unfold answer. destruct (delivers n r); auto. }
  destruct (handle_text_cases _ _ _ _ _ H)
    as [(pmin & pmax & Hle & -> & -> & ->)
       | [(n & _ & -> & -> & ->)
         | [(n & _ & -> & -> & ->) | (-> & -> & Ho)]]];
    simpl; do 5 (split; [reflexivity|]);
    (split; [intros; first [reflexivity | discriminate]|]).
  - destruct (delivers 0 (RangeSet pmin pmax)) eqn:E0; [auto|].
    destruct (Hans 1%nat RangeParseFailed) as [-> | [-> _]].
    + right. exists pmin, pmax. auto.
    + right. now exists 0%nat, (RangeSet pmin pmax).
  - destruct (Hans 0%nat (MinBuySet n)) as [-> | [-> E]]; [auto|].
    right. now exists 0%nat, (MinBuySet n).
  - destruct (Hans 0%nat (MaxBuySet n)) as [-> | [-> E]]; [auto|].
    right. now exists 0%nat, (MaxBuySet n).
  - destruct Ho as [-> | [-> | [-> | ->]]]; auto.
Qed.

End Settings.

(** ** [load_state] *)

Section Loading.

Variable admin_id : Z.

Lemma lookup_dict_set_absent d k v :
  lookup d k = None -> dict_set d k v = d ++ [(k, v)].
Proof.
  induction d as [|[k' v'] d IH]; simpl; [reflexivity|].
  destruct (String.eqb k k'); [discriminate|]. intros H. now rewrite IH.
Qed.

Lemma lookup_app d d' k :
  lookup (d ++ d') k
  = match lookup d k with Some v => Some v | None => lookup d' k end.
Proof.
  induction d as [|[k' v'] d IH]; simpl; [reflexivity|].
  destruct (String.eqb k k'); [reflexivity | exact IH].
Qed.

(** On a dictionary the loop returns the dictionary followed by the
    defaults it lacks. *)
Lemma backfill_dict defaults : forall d,
  exists extra,
    backfill defaults (PDict d) = Some (PDict (d ++ extra)) /\
    forall k, lookup (d ++ extra) k
              = match lookup d k with
                | Some v => Some v
                | None => lookup defaults k
                end.
Proof.
  induction defaults as [|[k0 v0] rest IH]; intros d; simpl.
  - exists []. rewrite app_nil_r. split; [reflexivity|].
    intros k. now destruct (lookup d k).
  - destruct (lookup d k0) as [v|] eqn:E0.
    + destruct (IH d) as (extra & E & Hl). exists extra. split; [exact E|].
      intros k. rewrite Hl. destruct (lookup d k) eqn:Ek; [reflexivity|].
      destruct (String.eqb k k0) eqn:Ekk; [|reflexivity].
      apply String.eqb_eq in Ekk. subst k0. congruence.
    + rewrite (lookup_dict_set_absent _ _ _ E0).
      destruct (IH (d ++ [(k0, v0)])) as (extra & E & Hl).
      exists ((k0, v0) :: extra).
      replace (d ++ (k0, v0) :: extra) with ((d ++ [(k0, v0)]) ++ extra)
        by (now rewrite <- app_assoc).
      split; [exact E|].
      intros k. rewrite Hl, lookup_app. simpl.
      destruct (lookup d k); [reflexivity|].
      now destruct (String.eqb k k0).
Qed.

(** X14. Loading a saved state that is a JSON object keeps every entry of
    the file, in its order and with its value (a key stored with [null]
    stays [null]), and adds after them exactly the top-level keys of
    [DEFAULT_STATE] that the file lacks, with their default values. *)
Theorem load_state_backfills_missing_keys (d : list (string * pyval)) :
  exists extra,
    load_state admin_id (Some (Some (PDict d))) = PDict (d ++ extra) /\
    forall k, lookup (d ++ extra) k
              = match lookup d k with
                | Some v => Some v
                | None => lookup (DEFAULT_STATE admin_id) k
                end.
Proof.
  destruct (backfill_dict (DEFAULT_STATE admin_id) d) as (extra & E & Hl).
  exists extra. split; [|exact Hl]. unfold load_state. now rewrite E.
Qed.

(** X15. A saved state that is not a JSON object is replaced by the
    defaults: when the file holds [null], a boolean, a number, or a list or
    a text in which ["market"] does not occur, the loop raises and
    [load_state] returns [DEFAULT_STATE], as it does when the file is missing
    or unreadable. *)
Theorem load_state_replaces_a_non_object (st : pyval) :
  (forall d, st <> PDict d) ->
  py_contains "market" st <> Some true ->
  load_state admin_id (Some (Some st)) = PDict (DEFAULT_STATE admin_id) /\
  load_state admin_id (Some None) = PDict (DEFAULT_STATE admin_id) /\
  load_state admin_id None = PDict (DEFAULT_STATE admin_id).
Proof.
  intros Hd Hm. split; [|split; reflexivity].
  unfold load_state. simpl backfill.
  destruct st as [| | | | t|l|d]; try reflexivity.
  - destruct (py_contains "market" (PStr t)) as [[|]|]; try reflexivity.
    now elim Hm.
  - destruct (py_contains "market" (PList l)) as [[|]|]; try reflexivity.
    now elim Hm.
  - now elim (Hd d).
Qed.

End Loading.

(** ** The buttons *)

Section Routing.

Variable py_str : pyval -> string.

(** X16. The buttons under a notification come back to the right branch of
    [button_router] with the right argument, whatever the identifiers hold
    (colons included, the data being split at its first colon only): the
    View Ad button with the text of the listing identifier, the Mark Paid
    button with the text of the order identifier, or with ["none"] when the
    order identifier is [None] or otherwise falsy. *)
Theorem notification_buttons_route_back (id order_id : pyval) :
  route (viewad_data py_str id) = ViewAd (py_str id) /\
  route (markpaid_data py_str order_id)
  = MarkPaid (py_str (py_or order_id (PStr "none"))) /\
  (truthy order_id = false ->
   route (markpaid_data py_str order_id) = MarkPaid (py_str (PStr "none"))).
Proof.
  assert (Hm : route (markpaid_data py_str order_id)
               = MarkPaid (py_str (py_or order_id (PStr "none")))).
  { unfold markpaid_data. generalize (py_str (py_or order_id (PStr "none"))).
    intros x. unfold route, after_colon. destruct x; reflexivity. }
  split; [|split].
  - unfold viewad_data. generalize (py_str id). intros x.
    unfold route, after_colon. destruct x; reflexivity.
  - exact Hm.
  - intros Hf. rewrite Hm. unfold py_or. now rewrite Hf.
Qed.

Lemma py_eqb_str x s : py_eqb x (PStr s) = true <-> x = PStr s.
Proof.
  destruct x as [|b|z|f|t|l|d]; simpl; split; try discriminate.
  - intros H. apply String.eqb_eq in H. now subst.
  - intros [= ->]. apply String.eqb_refl.
Qed.

(** X17. The View Ad lookup returns the first record of the history whose
    listing identifier is that very text, and finds one whenever there is
    one; a record whose identifier is not a text (a number, as the gateway
    may give) is never found, whatever text the button carries. *)
Theorem view_ad_finds_text_identifiers_only
    (id : string) (hist : list order_attempt) :
  (forall r, view_ad id hist = Some r ->
     exists before after,
       hist = before ++ r :: after /\ ad_id r = PStr id /\
       forall x, In x before -> ad_id x <> PStr id) /\
  (forall r, In r hist -> ad_id r = PStr id ->
     exists r', view_ad id hist = Some r') /\
  ((forall r, In r hist -> forall t, ad_id r <> PStr t) ->
   view_ad id hist = None).
Proof.
  unfold view_ad. induction hist as [|x hist (IH1 & IH2 & IH3)]; simpl.
  - repeat split; try discriminate; try contradiction.
  - destruct (py_eqb (ad_id x) (PStr id)) eqn:E.
    + apply py_eqb_str in E. split; [|split].
      * intros r [= <-]. exists [], hist. simpl. repeat split; auto.
      * intros r _ _. now exists x.
      * intros H. elim (H x (or_introl eq_refl) id E).
    + assert (Hx : ad_id x <> PStr id).
      { intros H. apply py_eqb_str in H. congruence. }
      split; [|split].
      * intros r Hr. destruct (IH1 r Hr) as (before & after & -> & Hid & Hb).
        exists (x :: before), after. simpl. repeat split; auto.
        intros y [<-|Hy]; auto.
      * intros r [<-|Hr] Hid; [contradiction|]. exact (IH2 r Hr Hid).
      * intros H. apply IH3. intros r Hr. apply H. now right.
Qed.

End Routing.

(** * More scenarios *)

Section MoreScenarios.

Import Sample.
Import Sample2.

(** X1 with a client whose [create_order] raises and whose
    [create_buy_order] answers: the order is answered by the second method,
    after two calls. *)
Lemma create_buy_order_falls_back_witness :
  Forall (raises_always (second_answers accepted)) ["create_order"] /\
  create_buy_order no_str (Some (second_answers accepted)) A1 10000 w0
  = (Some accepted, with_tick 2 w0).
Proof.
  assert (H : Forall (raises_always (second_answers accepted)) ["create_order"]).
  { constructor; [|constructor]. intros kwargs n. reflexivity. }
  split; [exact H|].
  exact (create_buy_order_falls_back no_str (second_answers accepted) A1 10000
           ["create_order"] "create_buy_order"
           ["create_order_v5"; "create_order_v1"; "post_order"; "place_order"]
           (fun _ _ => Returned accepted) accepted w0
           eq_refl eq_refl H eq_refl eq_refl).
Defined.

(** X2 with a client whose [get_online_ads] answers [{"items": []}] and
    whose [get_ads_list] answers [{"data": [A1]}]: the listings are those of
    the second method. *)
Lemma get_online_ads_falls_back_witness :
  Forall (lists_nothing (second_lists [PDict A1])) ["get_online_ads"] /\
  get_online_ads (Some (second_lists [PDict A1])) w0
  = (Some [PDict A1], with_tick 2 w0).
Proof.
  assert (H : Forall (lists_nothing (second_lists [PDict A1])) ["get_online_ads"]).
  { constructor; [|constructor]. intros kwargs n. reflexivity. }
  split; [exact H|].
  exact (get_online_ads_falls_back (second_lists [PDict A1])
           ["get_online_ads"] "get_ads_list" ["get_ads"; "get_ads_online"]
           (fun _ _ => Returned (PDict [("data", PList [PDict A1])]))
           [PDict A1] w0 eq_refl H eq_refl eq_refl).
Defined.

(** X4 on a seen set that is full: one more listing is acted upon, and the
    set still holds at most 1000 identifiers. *)
Lemma seen_set_stays_bounded_witness :
  List.length (seen_ads (crowded 1000)) = 1000%nat /\
  (List.length
     (seen_ads (exec (cycle (market [PDict A1] (Returned accepted)))
                  (crowded 1000))) <= 1000)%nat.
Proof.
  assert (H : List.length (seen_ads (crowded 1000)) = 1000%nat).
  { vm_compute. reflexivity. }
  split; [exact H|].
  apply (seen_set_stays_bounded clk no_parse no_str first_member
           (market [PDict A1] (Returned accepted)) (crowded 1000)).
  rewrite H. apply le_n.
Defined.


(** X9 on a history with a record stamped in 1970 and one whose timestamp
    does not parse, pruned in 2023: the second one stays. *)
Lemma prune_history_keeps_the_recent_records_witness :
  history (st (exec (prune_history clk) aged)) = [old_record TsMalformed].
Proof.
  refine (proj1 (proj2 (prune_history_keeps_the_recent_records clk aged
                          eq_refl _))).
  intros n _. unfold clk, ten_days. simpl tick. lia.
Defined.

(** X10 on the same history, under a clock that advances by one second per
    reading. *)
Lemma prune_history_twice_is_once_later_witness :
  history (st (exec (prune_history clk) (exec (prune_history clk) aged)))
  = filter (retained (clk (tick (exec (prune_history clk) aged))))
      (history (st aged)).
Proof.
  refine (prune_history_twice_is_once_later clk aged eq_refl _).
  intros a b H. unfold clk. lia.
Defined.

(** X11 on the message ["2000000"], above the [max_buy] of the defaults. *)
Lemma handle_text_keeps_amounts_ordered_witness :
  handle_text as_is ascii_isdigit ascii_int whole_float all_delivered
    (Some "2000000") st0
  = (set_max_buy 2000000 st0, true, Some (MaxBuySet 2000000)) /\
  configured_min_buy (set_max_buy 2000000 st0)
  <= max_buy (set_max_buy 2000000 st0) /\
  max_buy st0 <= max_buy (set_max_buy 2000000 st0).
Proof.
  split; [reflexivity|].
  apply (handle_text_keeps_amounts_ordered as_is ascii_isdigit ascii_int
           whole_float all_delivered (Some "2000000") st0
           (set_max_buy 2000000 st0) true (Some (MaxBuySet 2000000))).
  - vm_compute. discriminate.
  - reflexivity.
Defined.

(** X12 on the message ["1500-1600"]. *)
Lemma handle_text_keeps_band_ordered_witness :
  handle_text as_is ascii_isdigit ascii_int whole_float all_delivered
    (Some "1500-1600") st0
  = (set_price_range (fl 1500) (fl 1600) st0, true,
     Some (RangeSet (fl 1500) (fl 1600))) /\
  float_le (price_range_min (set_price_range (fl 1500) (fl 1600) st0))
           (price_range_max (set_price_range (fl 1500) (fl 1600) st0)) = true.
Proof.
  split; [reflexivity|].
  exact (handle_text_keeps_band_ordered as_is ascii_isdigit ascii_int
           whole_float all_delivered (Some "1500-1600") st0
           (set_price_range (fl 1500) (fl 1600) st0) true
           (Some (RangeSet (fl 1500) (fl 1600))) eq_refl eq_refl).
Defined.

(** X13 on the message ["1500-1600"] when the first send raises: the band is
    set and saved, and the chat reads ["Failed to parse range"]. *)
Lemma handle_text_answer_matches_change_witness :
  handle_text as_is ascii_isdigit ascii_int whole_float first_send_fails
    (Some "1500-1600") st0
  = (set_price_range (fl 1500) (fl 1600) st0, true, Some RangeParseFailed) /\
  history (set_price_range (fl 1500) (fl 1600) st0) = history st0 /\
  exists pmin pmax,
    first_send_fails 0 (RangeSet pmin pmax) = false /\
    float_le pmin pmax = true /\
    set_price_range (fl 1500) (fl 1600) st0 = set_price_range pmin pmax st0.
Proof.
  split; [reflexivity|].
  pose proof (handle_text_answer_matches_change as_is ascii_isdigit ascii_int
                whole_float first_send_fails (Some "1500-1600") st0
                (set_price_range (fl 1500) (fl 1600) st0) true
                (Some RangeParseFailed) eq_refl) as H.
  split; [exact (proj1 H)|].
  destruct (proj2 (proj2 (proj2 (proj2 (proj2 (proj2 H))))))
    as [[Hsaved _] | (pmin & pmax & Hsend & Hle & _ & Hs)].
  - discriminate Hsaved.
  - exists pmin, pmax. auto.
Defined.

(** X15 on a state file that holds [[]]. *)
Lemma load_state_replaces_a_non_object_witness :
  load_state 7 (Some (Some (PList []))) = PDict (DEFAULT_STATE 7).
Proof.
  refine (proj1 (load_state_replaces_a_non_object 7 (PList []) _ _)).
  - intros d. discriminate.
  - simpl. discriminate.
Defined.

End MoreScenarios.
